(** * CDSCO PDF keyword search: a shallow embedding of the three script variants

    The repository holds three iterations of one Streamlit script
    ([deepseek_python_20250617_002b0f.py], [..._83bd0a.py], [..._5c3fc3.py]).
    Each discovers document links on a listing page, downloads every
    document, extracts its text and searches the text for a keyword.

    Python [str] values are modelled as [list ascii], a character being a
    Unicode code point below 256 (ASCII and Latin-1): on these code points
    [str.lower], [str.isspace] and case-insensitive regular-expression
    matching never leave the range, and they are written out below. *)

From Stdlib Require Import Ascii String.
From Stdlib Require Import List Arith NArith Bool Lia Permutation Sorted.
Import ListNotations.

Set Implicit Arguments.

Definition str := list ascii.

(** Literals: ["abc"%string] read as a Python string. *)
Definition py (s : string) : str := list_ascii_of_string s.

(** ** Python built-ins on strings *)

Module Py.

Definition is_upper (c : ascii) : bool :=
  let n := nat_of_ascii c in
  ((65 <=? n) && (n <=? 90))
  || ((192 <=? n) && (n <=? 222) && negb (n =? 215)).

(** [str.lower] on one code point: A-Z and the Latin-1 capitals
    U+00C0-U+00DE (the multiplication sign U+00D7 apart) move up by 32. *)
Definition lower_char (c : ascii) : ascii :=
  if is_upper c then ascii_of_nat (nat_of_ascii c + 32) else c.

Definition lower (s : str) : str := map lower_char s.

(** [str.isspace] on one code point: TAB, LF, VT, FF, CR, the separators
    U+001C-U+001F, the space, NEL (U+0085) and NBSP (U+00A0). *)
Definition isspace (c : ascii) : bool :=
  let n := nat_of_ascii c in
  ((9 <=? n) && (n <=? 13)) || ((28 <=? n) && (n <=? 32))
  || (n =? 133) || (n =? 160).

Fixpoint lstrip (s : str) : str :=
  match s with
  | c :: tl => if isspace c then lstrip tl else s
  | [] => []
  end.

Definition rstrip (s : str) : str := rev (lstrip (rev s)).

(** [s.strip()] *)
Definition strip (s : str) : str := rstrip (lstrip s).

(** [s.startswith(sub)] *)
Fixpoint startswith (sub s : str) : bool :=
  match sub, s with
  | [], _ => true
  | k :: sub', c :: s' => Ascii.eqb k c && startswith sub' s'
  | _ :: _, [] => false
  end.

(** [sub in s] *)
Fixpoint contains (sub s : str) : bool :=
  startswith sub s
  || match s with
     | [] => false
     | _ :: tl => contains sub tl
     end.

(** The scan of [s.count(sub)] for a non-empty [sub]: [skip] characters
    of the occurrence found last are still to be stepped over. *)
Fixpoint count_scan (sub s : str) (skip : nat) : nat :=
  match s with
  | [] => 0
  | _ :: tl =>
      match skip with
      | S k => count_scan sub tl k
      | 0 => if startswith sub s
             then S (count_scan sub tl (length sub - 1))
             else count_scan sub tl 0
      end
  end.

(** [s.count(sub)]: the non-overlapping occurrences, left to right; the
    empty string occurs between any two characters and at both ends. *)
Definition count (s sub : str) : nat :=
  match sub with
  | [] => S (length s)
  | _ :: _ => count_scan sub s 0
  end.

(** [s.endswith(suffix)] *)
Definition endswith (suffix s : str) : bool :=
  startswith (rev suffix) (rev s).

(** [s.split(sep)[1]] for a non-empty [sep]: what lies between the
    first occurrence of [sep] and the next one; [None] stands for the
    [IndexError] of a string without [sep]. *)
Fixpoint after_first (sep s : str) : option str :=
  if startswith sep s then Some (skipn (length sep) s)
  else match s with
       | [] => None
       | _ :: tl => after_first sep tl
       end.

Fixpoint before_first (sep s : str) : str :=
  if startswith sep s then []
  else match s with
       | [] => []
       | c :: tl => c :: before_first sep tl
       end.

Definition split_item1 (sep s : str) : option str :=
  option_map (before_first sep) (after_first sep s).

(** The characters of [s] before the first [sep]. *)
Fixpoint before_char (sep : ascii) (s : str) : str :=
  match s with
  | [] => []
  | c :: tl => if Ascii.eqb c sep then [] else c :: before_char sep tl
  end.

(** [s.split(sep)[-1]] for a separator of one character: what stands
    behind the last [sep], the whole of [s] when it has none. *)
Definition split_last (sep : ascii) (s : str) : str :=
  rev (before_char sep (rev s)).

(** [s[i:j]] for [0 <= i], [0 <= j] *)
Definition slice (s : str) (i j : nat) : str := firstn (j - i) (skipn i s).

(** [sorted(l, key=key)]: a stable sort, elements with equal keys keep
    their order; written as the insertion sort to which the library's
    merge sort is equivalent. *)
Section Sorted.
Variable A : Type.
Variable key : A -> nat.

Fixpoint insert (x : A) (l : list A) : list A :=
  match l with
  | [] => [x]
  | y :: tl => if key x <=? key y then x :: l else y :: insert x tl
  end.

Definition sorted (l : list A) : list A := fold_right insert [] l.

(** [sorted(l, key=key, reverse=True)]: the list is reversed, sorted
    and reversed again, which keeps elements with equal keys in their
    original order. *)
Definition sorted_reverse (l : list A) : list A := rev (sorted (rev l)).
End Sorted.

End Py.

(** ** The regular expression [(.{0,30}KEYWORD.{0,30})] with [re.IGNORECASE] *)

Module Re.

(** [.] without [re.DOTALL]: any character but the line feed. *)
Definition dot (c : ascii) : bool := negb (Ascii.eqb c "010"%char).

(** Greedy [.{0,limit}]: how many characters it takes at first. *)
Fixpoint greedy_dots (limit : nat) (s : str) : nat :=
  match limit, s with
  | S l, c :: tl => if dot c then S (greedy_dots l tl) else 0
  | _, _ => 0
  end.

(** An escaped literal under [IGNORECASE]: character by character, the
    lower-cased text character against the lower-cased pattern one. *)
Fixpoint literal_ignorecase (pat s : str) : bool :=
  match pat, s with
  | [], _ => true
  | k :: pat', c :: s' =>
      Ascii.eqb (Py.lower_char c) (Py.lower_char k)
      && literal_ignorecase pat' s'
  | _ :: _, [] => false
  end.

(** Backtracking of the leading [.{0,30}]: from the [n] characters taken,
    give one back at a time until the literal matches behind them. *)
Fixpoint backtrack (pat s : str) (n : nat) : option nat :=
  if literal_ignorecase pat (skipn n s) then Some n
  else match n with
       | 0 => None
       | S n' => backtrack pat s n'
       end.

(** One match attempt anchored at the head of [s]: the lengths of the
    text taken before and after the literal. *)
Definition match_here (pat s : str) : option (nat * nat) :=
  match backtrack pat s (greedy_dots 30 s) with
  | Some n => Some (n, greedy_dots 30 (skipn (n + length pat) s))
  | None => None
  end.

(** A match object: [m.start()], [m.end()]. *)
Record re_match := { m_start : nat; m_end : nat }.

(** [pattern.finditer(text)]: [s] is the text from position [pos] on;
    [skip] characters of the last match are still to be stepped over.
    After an empty match the scanner does not accept an empty match at
    the same position again, which moves it one character on. *)
Fixpoint finditer_from (pat s : str) (pos skip : nat) : list re_match :=
  match skip with
  | S k =>
      match s with
      | [] => []
      | _ :: tl => finditer_from pat tl (S pos) k
      end
  | 0 =>
      match match_here pat s with
      | Some (n, m) =>
          let len := n + length pat + m in
          {| m_start := pos; m_end := pos + len |}
          :: match s with
             | [] => []
             | _ :: tl => finditer_from pat tl (S pos) (len - 1)
             end
      | None =>
          match s with
          | [] => []
          | _ :: tl => finditer_from pat tl (S pos) 0
          end
      end
  end.

Definition finditer (pat text : str) : list re_match :=
  finditer_from pat text 0 0.

(** [m.group(1)]: the whole pattern is the one group. *)
Definition group1 (text : str) (m : re_match) : str :=
  Py.slice text (m_start m) (m_end m).

(** [re.sub(re.escape(pat), repl, s, flags=re.IGNORECASE)]: every match
    of the literal, left to right and not overlapping, gives way to
    [repl] of the text matched; behind an empty match one character is
    copied. [skip] characters of the last match are still ahead. *)
Fixpoint sub_from (pat : str) (repl : str -> str) (s : str) (skip : nat)
  : str :=
  match skip with
  | S k =>
      match s with
      | [] => []
      | _ :: tl => sub_from pat repl tl k
      end
  | 0 =>
      if literal_ignorecase pat s then
        repl (firstn (length pat) s)
        ++ match s with
           | [] => []
           | c :: tl =>
               match pat with
               | [] => c :: sub_from pat repl tl 0
               | _ :: _ => sub_from pat repl tl (length pat - 1)
               end
           end
      else
        match s with
        | [] => []
        | c :: tl => c :: sub_from pat repl tl 0
        end
  end.

Definition sub (pat : str) (repl : str -> str) (s : str) : str :=
  sub_from pat repl s 0.

End Re.

(** ** The outside world: clock, network, user interface *)

Definition bytes := list Byte.byte.

(** The exceptions the libraries raise; all derive from [Exception]. *)
Inductive exn :=
| ConnectionError
| Timeout
| HTTPError (status : nat)
| PdfReadError
| OtherError.

(** The arguments of one [requests.get] call. *)
Record request := {
  req_url : str;
  req_headers : list (str * str);
  req_timeout : option nat
}.

Record response := { status_code : nat; content : bytes }.

(** What [st.error] and [st.warning] put on the screen. *)
Inductive notice :=
| StError (e : exn)
| StWarning (about : str) (e : exn)
| StInfo.

(** The clock counts milliseconds; [sent] and [notices] grow at the end. *)
Record world := {
  now : N;
  sent : list request;
  notices : list notice
}.

Definition log_request (r : request) (w : world) : world :=
  {| now := now w; sent := sent w ++ [r]; notices := notices w |}.

Definition show (n : notice) (w : world) : world :=
  {| now := now w; sent := sent w; notices := notices w ++ [n] |}.

(** [time.sleep] *)
Definition sleep (ms : N) (w : world) : world :=
  {| now := (now w + ms)%N; sent := sent w; notices := notices w |}.

(** Code that may raise: the outcome and the world it leaves. *)
Definition M (A : Type) : Type := world -> (exn + A) * world.

Definition ret {A} (a : A) : M A := fun w => (inr a, w).
Definition raise {A} (e : exn) : M A := fun w => (inl e, w).
Definition bind {A B} (m : M A) (k : A -> M B) : M B :=
  fun w => match m w with
           | (inr a, w') => k a w'
           | (inl e, w') => (inl e, w')
           end.
Definition lift {A} (r : exn + A) : M A := fun w => (r, w).
Definition effect (f : world -> world) : M unit := fun w => (inr tt, f w).

Notation "x <- m ;; k" := (bind m (fun x => k))
  (at level 61, m at next level, right associativity).
Notation "m ;;; k" := (bind m (fun _ => k))
  (at level 61, right associativity).

(** [try: body except Exception as e: handler(e)] *)
Definition try_except {A} (body : M A) (handler : exn -> world -> A * world)
  : world -> A * world :=
  fun w => match body w with
           | (inr a, w') => (a, w')
           | (inl e, w') => handler e w'
           end.

(** [try: body except PyPDF2.errors.PdfReadError: return fallback] *)
Definition try_except_PdfReadError {A} (body : M A) (fallback : A) : M A :=
  fun w => match body w with
           | (inl PdfReadError, w') => (inr fallback, w')
           | r => r
           end.

(** A parsed page: the [<a href=...>] elements in document order, and
    those inside the first [<ul class="pagination">] when there is one. *)
Record anchor := { href : str; link_text : str }.
Record soup := { anchors : list anchor; pagination : option (list anchor) }.

Definition user_agent : str * str :=
  (py "User-Agent",
   py "Mozilla/5.0 (Windows NT 10.0; Win64; x64) AppleWebKit/537.36 (KHTML, like Gecko) Chrome/91.0.4472.124 Safari/537.36").

(** ** The libraries the scripts call *)

(** [remote] is the web as [requests.get] sees it at a given instant;
    [BeautifulSoup] is the HTML parser; [PdfReader] gives the pages of a
    payload, each with the outcome of its [extract_text()] ([None] or the
    empty string for a page without text); [set_iter] is the order in
    which Python iterates over [set(l)]. *)
Record libs := {
  remote : N -> request -> exn + response;
  BeautifulSoup : bytes -> soup;
  PdfReader : bytes -> exn + list (exn + option str);
  urljoin : str -> str -> str;
  set_iter : list str -> list str
}.

(** What is known of [set(l)]: each element of [l], once. *)
Definition set_iter_ok (E : libs) : Prop :=
  forall l, NoDup (set_iter E l) /\ forall x, In x (set_iter E l) <-> In x l.

Definition requests_get (E : libs) (r : request) : M response :=
  fun w => (remote E (now w) r, log_request r w).

(** [response.raise_for_status()]: an [HTTPError] for 4xx and 5xx. *)
Definition raise_for_status (r : response) : M unit :=
  if (400 <=? status_code r) && (status_code r <? 600)
  then raise (HTTPError (status_code r))
  else ret tt.

(** [for page in reader.pages: text += page.extract_text() or ""] *)
Fixpoint read_pages (pages : list (exn + option str)) (text : str)
  : exn + str :=
  match pages with
  | [] => inr text
  | inl e :: _ => inl e
  | inr t :: rest =>
      read_pages rest (text ++ match t with Some s => s | None => [] end)
  end.

(** [href.lower().endswith('.pdf')] *)
Definition is_pdf_href (h : str) : bool :=
  Py.endswith (py ".pdf") (Py.lower h).

(** The loop over [find_all('a', href=True)] that appends the resolved
    address of every link to a PDF. *)
Definition pdf_hrefs (E : libs) (base : str) (l : list anchor) : list str :=
  map (urljoin E base) (filter is_pdf_href (map href l)).

(** ** [@st.cache_data(ttl=...)] *)

Section CacheData.
Variables K V : Type.
Variable K_eq_dec : forall a b : K, {a = b} + {a <> b}.
Variable ttl : N.
Variable f : K -> world -> V * world.

(** What is kept for a call: the value returned, the notices the run put
    on the screen, which a later hit shows again, and the instant of
    storing. *)
Record entry := { value : V; shown_in_run : list notice; stored_at : N }.

Definition cache := K -> option entry.

Definition store (k : K) (e : entry) (c : cache) : cache :=
  fun k' => if K_eq_dec k k' then Some e else c k'.

(** The entry for [k], as long as it is younger than [ttl]. *)
Definition fresh (c : cache) (k : K) (t : N) : option entry :=
  match c k with
  | Some e => if (t <? stored_at e + ttl)%N then Some e else None
  | None => None
  end.

Definition replay (msgs : list notice) (w : world) : world :=
  {| now := now w; sent := sent w; notices := notices w ++ msgs |}.

(** A call of the decorated function: the stored value while it is
    fresh, else a run of [f] whose result, whatever it is, is stored. *)
Definition cache_data (k : K) (st : cache * world) : V * (cache * world) :=
  let (c, w) := st in
  match fresh c k (now w) with
  | Some e => (value e, (c, replay (shown_in_run e) w))
  | None =>
      let (v, w') := f k w in
      (v, (store k {| value := v;
                      shown_in_run := skipn (length (notices w)) (notices w');
                      stored_at := now w' |} c,
           w'))
  end.
End CacheData.

(** 24 hours, in milliseconds *)
Definition ttl_24h : N := 24 * 3600 * 1000.

Definition str_eq_dec : forall a b : str, {a = b} + {a <> b} :=
  list_eq_dec ascii_dec.

(** ** The search, common to the three variants

    A document [D] is the address of a PDF (002b0f, 83bd0a) or the
    dictionary of a download link (5c3fc3); a result keeps it whole: its
    [url], and the [filename] or the [title] and [id] shown with it, are
    read from [doc]. [W] is whatever state the text extraction works on. *)

Section Search.
Variables D W : Type.
Variable extract_text_from_pdf : D -> W -> str * W.
Variable pause : W -> W.

Record result := { doc : D; occurrences : list str; count : nat }.

(** The snippets of one text: lines 75-80 of 002b0f. *)
Definition find_occurrences (keyword text : str) : list str :=
  firstn 5 (map (fun m => Py.strip (Re.group1 text m))
                (Re.finditer keyword text)).

(** What one document with text [text] appends to [results];
    [keyword] is lower-cased already. *)
Definition search_document (d : D) (text keyword : str) : list result :=
  let text_lower := Py.lower text in
  if Py.contains keyword text_lower then
    [{| doc := d;
        occurrences := find_occurrences keyword text;
        count := Py.count text_lower keyword |}]
  else [].

Fixpoint search_loop (keyword : str) (pdf_links : list D)
         (results : list result) (w : W) : list result * W :=
  match pdf_links with
  | [] => (results, w)
  | d :: rest =>
      let (text, w1) := extract_text_from_pdf d w in
      match text with
      | [] => search_loop keyword rest results w1
      | _ :: _ =>
          search_loop keyword rest
                      (results ++ search_document d text keyword)
                      (pause w1)
      end
  end.

Definition search_keyword_in_pdfs (pdf_links : list D) (keyword : str)
  : W -> list result * W :=
  search_loop (Py.lower keyword) pdf_links [].

(** The line [main] writes for a snippet: the keyword as typed, set in
    [**...**] wherever it occurs, whatever its case. *)
Definition highlighted (keyword occurrence : str) : str :=
  Re.sub keyword (fun m => py "**" ++ m ++ py "**") occurrence.

(** The results [main] opens an expander for, in the order shown. *)
Definition shown (min_matches : nat) (results : list result) : list result :=
  filter (fun r => negb (count r <? min_matches))
         (Py.sorted_reverse count results).

Variable get_all_pdf_links : W -> list D * W.

Definition main (keyword : str) (min_matches : nat) (w : W)
  : list result * W :=
  match keyword with
  | [] => ([], w)
  | _ :: _ =>
      let (pdf_links, w1) := get_all_pdf_links w in
      match pdf_links with
      | [] => ([], w1)
      | _ :: _ =>
          let (results, w2) := search_keyword_in_pdfs pdf_links keyword w1 in
          (shown min_matches results, w2)
      end
  end.
End Search.

Arguments doc {D} _.
Arguments occurrences {D} _.
Arguments count {D} _.

(** The state of a run: the cache of extracted texts and the world. The
    list of links is computed by a run of the body of
    [get_all_pdf_links]; its own cache is left out. *)
Definition on_world {C} (f : world -> world) (st : C * world) : C * world :=
  (fst st, f (snd st)).

Definition links_uncached {C A} (f : world -> A * world) (st : C * world)
  : A * (C * world) :=
  let (a, w') := f (snd st) in (a, (fst st, w')).

(** ** Variant [deepseek_python_20250617_002b0f.py] *)

Module F002b0f.

Definition get_all_pdf_links (E : libs) (base_url : str)
  : world -> list str * world :=
  try_except
    (response <- requests_get E {| req_url := base_url;
                                   req_headers := [];
                                   req_timeout := None |} ;;
     raise_for_status response ;;;
     let soup := BeautifulSoup E (content response) in
     ret (pdf_hrefs E base_url (anchors soup)))
    (fun e w => ([], show (StError e) w)).

(** The body under the decorator. *)
Definition extract_text_from_pdf_body (E : libs) (pdf_url : str)
  : world -> str * world :=
  try_except
    (response <- requests_get E {| req_url := pdf_url;
                                   req_headers := [];
                                   req_timeout := None |} ;;
     raise_for_status response ;;;
     pages <- lift (PdfReader E (content response)) ;;
     lift (read_pages pages []))
    (fun e w => ([], show (StWarning pdf_url e) w)).

Definition extract_text_from_pdf (E : libs) :=
  cache_data str_eq_dec ttl_24h (extract_text_from_pdf_body E).

Definition CDSCO_BASE_URL : str :=
  py "https://cdsco.gov.in/opencms/opencms/en/Notifications/SEC/".

(** [result['url'].split('/')[-1]], the name in the title of the
    expander. *)
Definition expander_name (r : result str) : str :=
  Py.split_last "/"%char (doc r).

Definition search_keyword_in_pdfs (E : libs) :=
  search_keyword_in_pdfs (extract_text_from_pdf E) (on_world (sleep 100)).

Definition main (E : libs) :=
  main (extract_text_from_pdf E) (on_world (sleep 100))
       (links_uncached (get_all_pdf_links E CDSCO_BASE_URL)).

End F002b0f.

(** ** Variant [deepseek_python_20250617_83bd0a.py] *)

Module F83bd0a.

(** One round of [for page_url in set(page_links)]. *)
Definition scan_page (E : libs) (page_url : str)
  : world -> list str * world :=
  try_except
    (page_resp <- requests_get E {| req_url := page_url;
                                    req_headers := [];
                                    req_timeout := Some 10 |} ;;
     raise_for_status page_resp ;;;
     let page_soup := BeautifulSoup E (content page_resp) in
     ret (pdf_hrefs E page_url (anchors page_soup)))
    (fun e w => ([], show (StWarning page_url e) w)).

Fixpoint scan_pages (E : libs) (page_urls : list str) (pdf_links : list str)
  : world -> list str * world :=
  fun w =>
    match page_urls with
    | [] => (pdf_links, w)
    | page_url :: rest =>
        let (found, w') := scan_page E page_url w in
        scan_pages E rest (pdf_links ++ found) w'
    end.

Definition get_all_pdf_links (E : libs) (base_url : str)
  : world -> list str * world :=
  try_except
    (response <- requests_get E {| req_url := base_url;
                                   req_headers := [];
                                   req_timeout := Some 10 |} ;;
     raise_for_status response ;;;
     let soup := BeautifulSoup E (content response) in
     let pdf_links := pdf_hrefs E base_url (anchors soup) in
     pdf_links <-
       match pagination soup with
       | Some links =>
           effect (show StInfo) ;;;
           let page_links := map (fun a => urljoin E base_url (href a)) links in
           fun w => let (l, w') := scan_pages E (set_iter E page_links)
                                              pdf_links w in
                    (inr l, w')
       | None => ret pdf_links
       end ;;
     ret (set_iter E pdf_links))
    (fun e w => ([], show (StError e) w)).

Definition extract_text_from_pdf_body (E : libs) (pdf_url : str)
  : world -> str * world :=
  try_except
    (response <- requests_get E {| req_url := pdf_url;
                                   req_headers := [user_agent];
                                   req_timeout := Some 10 |} ;;
     raise_for_status response ;;;
     try_except_PdfReadError
       (pages <- lift (PdfReader E (content response)) ;;
        lift (read_pages pages []))
       [])
    (fun e w => ([], show (StWarning pdf_url e) w)).

Definition extract_text_from_pdf (E : libs) :=
  cache_data str_eq_dec ttl_24h (extract_text_from_pdf_body E).

Definition CDSCO_BASE_URL : str :=
  py "https://cdsco.gov.in/opencms/opencms/en/Notifications/Safety-Notices/".

(** The entry ['filename': pdf_url.split('/')[-1]] of a result. *)
Definition filename (r : result str) : str :=
  Py.split_last "/"%char (doc r).

Definition search_keyword_in_pdfs (E : libs) :=
  search_keyword_in_pdfs (extract_text_from_pdf E) (on_world (sleep 500)).

Definition main (E : libs) :=
  main (extract_text_from_pdf E) (on_world (sleep 500))
       (links_uncached (get_all_pdf_links E CDSCO_BASE_URL)).

End F83bd0a.

(** ** Variant [deepseek_python_20250617_5c3fc3.py] *)

Module F5c3fc3.

Definition PDF_BASE_URL : str :=
  py "https://cdsco.gov.in/opencms/opencms/system/modules/CDSCO.WEB/elements/common_download.jsp".

(** The dictionary [{'url': ..., 'title': ..., 'id': ...}]. *)
Record pdf_info := { url : str; title : str; id : str }.

Definition pdf_info_eq_dec : forall a b : pdf_info, {a = b} + {a <> b}.
Proof. decide equality; apply str_eq_dec. Defined.

(** The body of the loop over the links: what one link appends. *)
Definition download_link (a : anchor) : exn + list pdf_info :=
  if Py.contains (py "common_download.jsp") (href a) then
    if Py.contains (py "num_id_pk=") (href a) then
      match Py.split_item1 (py "num_id_pk=") (href a) with
      | Some num_id =>
          inr [{| url := PDF_BASE_URL ++ py "?num_id_pk=" ++ num_id;
                  title := Py.strip (link_text a);
                  id := num_id |}]
      | None => inl OtherError
      end
    else inr []
  else inr [].

Fixpoint download_links (l : list anchor) (pdf_links : list pdf_info)
  : exn + list pdf_info :=
  match l with
  | [] => inr pdf_links
  | a :: rest =>
      match download_link a with
      | inr found => download_links rest (pdf_links ++ found)
      | inl e => inl e
      end
  end.

Definition get_all_pdf_links (E : libs) (base_url : str)
  : world -> list pdf_info * world :=
  try_except
    (response <- requests_get E {| req_url := base_url;
                                   req_headers := [user_agent];
                                   req_timeout := Some 10 |} ;;
     raise_for_status response ;;;
     let soup := BeautifulSoup E (content response) in
     lift (download_links (anchors soup) []))
    (fun e w => ([], show (StError e) w)).

Definition extract_text_from_pdf_body (E : libs) (info : pdf_info)
  : world -> str * world :=
  try_except
    (response <- requests_get E {| req_url := url info;
                                   req_headers := [user_agent];
                                   req_timeout := Some 30 |} ;;
     raise_for_status response ;;;
     try_except_PdfReadError
       (pages <- lift (PdfReader E (content response)) ;;
        lift (read_pages pages []))
       [])
    (fun e w => ([], show (StWarning (title info) e) w)).

Definition extract_text_from_pdf (E : libs) :=
  cache_data pdf_info_eq_dec ttl_24h (extract_text_from_pdf_body E).

Definition CDSCO_BASE_URL : str :=
  py "https://cdsco.gov.in/opencms/opencms/en/Committees/SEC/".

Definition quote : str := ["034"%char].

(** [get_download_link(pdf_id, title)] *)
Definition get_download_link (pdf_id title : str) : str :=
  let pdf_url := PDF_BASE_URL ++ py "?num_id_pk=" ++ pdf_id in
  py "<a href=" ++ quote ++ pdf_url ++ quote
  ++ py " target=" ++ quote ++ py "_blank" ++ quote
  ++ py " download=" ++ quote ++ title ++ py ".pdf" ++ quote
  ++ py ">Download PDF</a>".

Definition search_keyword_in_pdfs (E : libs) :=
  search_keyword_in_pdfs (extract_text_from_pdf E) (on_world (sleep 1000)).

Definition main (E : libs) :=
  main (extract_text_from_pdf E) (on_world (sleep 1000))
       (links_uncached (get_all_pdf_links E CDSCO_BASE_URL)).

End F5c3fc3.


(** ** The spec's words for counting, to compare with the code *)

Module Spec.

(** Two characters match case-insensitively when they are the same or
    one is the lower-case form of the other. *)
Definition same_letter (a b : ascii) : bool :=
  Ascii.eqb a b
  || Ascii.eqb (Py.lower_char a) b
  || Ascii.eqb a (Py.lower_char b).

(** [K] matches at the head of [s], case-insensitively. *)
Fixpoint matches_here (K s : str) : bool :=
  match K, s with
  | [], _ => true
  | k :: K', c :: s' => same_letter k c && matches_here K' s'
  | _ :: _, [] => false
  end.

(** The number of non-overlapping case-insensitive matches of [K] in the
    text, left to right: a match at every position where [K] matches,
    the search going on behind the match (one character on, behind an
    empty match). [skip] characters of the last match are still ahead. *)
Fixpoint match_count_from (K s : str) (skip : nat) : nat :=
  match skip with
  | S k =>
      match s with
      | [] => 0
      | _ :: tl => match_count_from K tl k
      end
  | 0 =>
      if matches_here K s then
        S match s with
          | [] => 0
          | _ :: tl => match_count_from K tl (length K - 1)
          end
      else
        match s with
        | [] => 0
        | _ :: tl => match_count_from K tl 0
        end
  end.

Definition match_count (T K : str) : nat := match_count_from K T 0.



End Spec.

(** ** Ghost definitions for the statements *)

(** Every character. *)
Definition all_chars : list ascii := map ascii_of_nat (seq 0 256).

(** The documents of a run with the text each call of the extraction
    returned, in the order of the calls. *)
Section Extracted.
Variables D W : Type.
Variable extract_text_from_pdf : D -> W -> str * W.
Variable pause : W -> W.

Fixpoint extracted (pdf_links : list D) (w : W) : list (D * str) :=
  match pdf_links with
  | [] => []
  | d :: rest =>
      let (text, w1) := extract_text_from_pdf d w in
      (d, text) :: extracted rest match text with
                                  | [] => w1
                                  | _ :: _ => pause w1
                                  end
  end.

(** What a document with its text adds to the results. *)
Definition contribution (keyword : str) (dt : D * str) : list (result D) :=
  match snd dt with
  | [] => []
  | _ :: _ => search_document (fst dt) (snd dt) keyword
  end.
End Extracted.

(** [l] with some elements left out. *)
Inductive subsequence {A : Type} : list A -> list A -> Prop :=
| subseq_nil : subsequence [] []
| subseq_skip x l l' : subsequence l l' -> subsequence l (x :: l')
| subseq_keep x l l' : subsequence l l' -> subsequence (x :: l) (x :: l').



(** ** A small site to run the scripts on *)

Module Demo.

Definition listing : str := py "http://site/list".
Definition page2 : str := py "http://site/list?page=2".
Definition a_pdf : str := py "http://site/a.pdf".
Definition b_pdf : str := py "http://site/b.pdf".
Definition c_pdf : str := py "http://site/c.pdf".
Definition late_pdf : str := py "http://site/late.pdf".
Definition unchanged : str := py "http://site/unchanged".

Definition ok (c : bytes) : exn + response :=
  inr {| status_code := 200; content := c |}.

Definition is_url (u v : str) : bool :=
  if str_eq_dec u v then true else false.

(** The listing is also served at the addresses the scripts are set up
    for; [b.pdf] is missing; [late.pdf] times out during the first
    second. *)
Definition web (t : N) (r : request) : exn + response :=
  let u := req_url r in
  if Py.startswith F5c3fc3.PDF_BASE_URL u then ok [Byte.x0a]
  else if is_url u listing || Py.startswith (py "https://cdsco.gov.in/") u
  then ok [Byte.x01]
  else if is_url u page2 then ok [Byte.x02]
  else if is_url u a_pdf then ok [Byte.x0a]
  else if is_url u b_pdf then inr {| status_code := 404; content := [] |}
  else if is_url u c_pdf then ok [Byte.x0c]
  else if is_url u late_pdf then
    if (t <? 1000)%N then inl Timeout else ok [Byte.x0a]
  else if is_url u unchanged then inr {| status_code := 304; content := [] |}
  else inl ConnectionError.

Definition link (h : string) : anchor :=
  {| href := py h; link_text := py h |}.

(** The first page links [a.pdf] twice and one download twice, and has
    a pager that names the page itself and the second page. *)
Definition parse_html (c : bytes) : soup :=
  match c with
  | [Byte.x01] =>
      {| anchors := [link "a.pdf"; link "B.PDF"; link "a.pdf";
                     {| href := py "common_download.jsp?num_id_pk=NDI=";
                        link_text := py " Minutes of the meeting " |};
                     {| href := py "common_download.jsp?num_id_pk=NDI=";
                        link_text := py "Download" |};
                     link "list"; link "list?page=2"; link "about.html"];
         pagination := Some [link "list"; link "list?page=2";
                             link "list?page=2"] |}
  | [Byte.x02] =>
      {| anchors := [link "c.pdf"; link "list"; link "list?page=2"];
         pagination := Some [link "list"; link "list?page=2"] |}
  | _ => {| anchors := []; pagination := None |}
  end.

Definition read_pdf (c : bytes) : exn + list (exn + option str) :=
  match c with
  | [Byte.x0a] =>
      inr [inr (Some (py "the drug Paracetamol was administered. "));
           inr None;
           inr (Some (py "PARACETAMOL 500 mg"))]
  | [Byte.x0c] => inr [inr (Some (py "ab ab"))]
  | _ => inl PdfReadError
  end.

Definition join (base href : str) : str := py "http://site/" ++ href.

Definition E : libs :=
  {| remote := web;
     BeautifulSoup := parse_html;
     PdfReader := read_pdf;
     urljoin := join;
     set_iter := nodup str_eq_dec |}.

Definition w0 : world := {| now := 0; sent := []; notices := [] |}.

Definition no_cache {K : Type} : cache K str := fun _ => None.

Definition st0 : cache str str * world := (no_cache, w0).

Definition minutes : F5c3fc3.pdf_info :=
  {| F5c3fc3.url := F5c3fc3.PDF_BASE_URL ++ py "?num_id_pk=NDI=";
     F5c3fc3.title := py "Minutes of the meeting";
     F5c3fc3.id := py "NDI=" |}.

Definition docs : list str := [a_pdf; b_pdf; c_pdf].

(** What the search for "Paracetamol" finds in [docs]. *)
Definition found : result str :=
  {| doc := a_pdf;
     occurrences :=
       [py "the drug Paracetamol was administered. PARACETAMOL"];
     count := 2 |}.


Definition late : F5c3fc3.pdf_info :=
  {| F5c3fc3.url := late_pdf;
     F5c3fc3.title := py "Late";
     F5c3fc3.id := py "late" |}.

End Demo.

(** ** The requests of the variants, and when a fetch fails *)

Definition request_002b0f (u : str) : request :=
  {| req_url := u; req_headers := []; req_timeout := None |}.

Definition page_request_83bd0a (u : str) : request :=
  {| req_url := u; req_headers := []; req_timeout := Some 10 |}.

Definition listing_request_5c3fc3 (u : str) : request :=
  {| req_url := u; req_headers := [user_agent]; req_timeout := Some 10 |}.

Definition document_request_5c3fc3 (u : str) : request :=
  {| req_url := u; req_headers := [user_agent]; req_timeout := Some 30 |}.

(** [requests.get] raises [e], or the status of the answer makes
    [raise_for_status] raise it. *)
Definition fetch_fails (E : libs) (w : world) (r : request) (e : exn) : Prop :=
  remote E (now w) r = inl e
  \/ exists resp,
       remote E (now w) r = inr resp
       /\ 400 <= status_code resp < 600
       /\ e = HTTPError (status_code resp).

(** The answer is there and [raise_for_status] lets it pass. *)
Definition fetch_gives (E : libs) (w : world) (r : request) (resp : response)
  : Prop :=
  remote E (now w) r = inr resp
  /\ (400 <=? status_code resp) && (status_code resp <? 600) = false.

(** [page.extract_text() or ""] *)
Definition page_text (t : option str) : str :=
  match t with
  | Some s => s
  | None => []
  end.

(** What the scan of the page at [u] adds in variant 83bd0a. *)
Definition page_links_83bd0a (E : libs) (t : N) (u : str) : list str :=
  match remote E t (page_request_83bd0a u) with
  | inr resp =>
      if (400 <=? status_code resp) && (status_code resp <? 600) then []
      else pdf_hrefs E u (anchors (BeautifulSoup E (content resp)))
  | inl _ => []
  end.

(** No white space at either end. *)
Definition trimmed (s : str) : Prop :=
  match s with
  | [] => True
  | c :: _ => Py.isspace c = false
  end
  /\ match rev s with
     | [] => True
     | c :: _ => Py.isspace c = false
     end.

Definition document_request_83bd0a (u : str) : request :=
  {| req_url := u; req_headers := [user_agent]; req_timeout := Some 10 |}.

(** The request carries the [User-Agent] header and a timeout. *)
Definition identified (r : request) : Prop :=
  In user_agent (req_headers r) /\ req_timeout r <> None.

(** When the fetch of [r] fails, [f] returns the empty list, or the empty
    text, and leaves the notice [n e] on the screen. *)
Definition caught {A : Type} (E : libs) (f : world -> list A * world)
           (r : request) (n : exn -> notice) : Prop :=
  forall w e,
    fetch_fails E w r e -> f w = ([], show (n e) (log_request r w)).


(** ** Further definitions for the statements *)


(** The documents of a run for which the extraction gave some text. *)
Definition with_text {D : Type} (l : list (D * str)) : list (D * str) :=
  filter (fun dt => match snd dt with [] => false | _ :: _ => true end) l.

(** The link is one [get_all_pdf_links] of 5c3fc3 takes for a download. *)
Definition is_download_href (h : str) : bool :=
  Py.contains (py "common_download.jsp") h
  && Py.contains (py "num_id_pk=") h.

(** A site that cannot be reached, and a PDF reader that breaks down. *)
Module Offline.

Definition E : libs :=
  {| remote := fun _ _ => inl ConnectionError;
     BeautifulSoup := Demo.parse_html;
     PdfReader := Demo.read_pdf;
     urljoin := Demo.join;
     set_iter := nodup str_eq_dec |}.

Definition E_broken_reader : libs :=
  {| remote := Demo.web;
     BeautifulSoup := Demo.parse_html;
     PdfReader := fun _ => inl OtherError;
     urljoin := Demo.join;
     set_iter := nodup str_eq_dec |}.

(** A document for which the site sends the listing page, no PDF. *)
Definition not_a_pdf : F5c3fc3.pdf_info :=
  {| F5c3fc3.url := Demo.listing;
     F5c3fc3.title := py "Listing";
     F5c3fc3.id := py "0" |}.

End Offline.

(** A reader whose second page cannot be read. *)
Definition bad_page_libs : libs :=
  {| remote := Demo.web;
     BeautifulSoup := Demo.parse_html;
     PdfReader := fun _ => inr [inr (Some (py "page one"));
                                inl OtherError;
                                inr (Some (py "page three"))];
     urljoin := Demo.join;
     set_iter := nodup str_eq_dec |}.

(** * Properties *)

(** ** The built-ins at work *)

Example count_does_not_overlap :
  Py.count (py "aaaaa") (py "aa") = 2 /\ Py.count (py "abc") (py "") = 4.
Proof. split; reflexivity. Qed.

Example strip_keeps_inner_space :
  Py.strip (py "  the drug  ") = py "the drug".
Proof. reflexivity. Qed.

Example lower_latin1 :
  Py.lower (py "Paracetamol 500 MG") = py "paracetamol 500 mg"
  /\ Py.lower_char "192"%char = "224"%char
  /\ Py.lower_char "215"%char = "215"%char.
Proof. repeat split; reflexivity. Qed.

Example split_item1_takes_the_identifier :
  Py.split_item1 (py "num_id_pk=") (py "common_download.jsp?num_id_pk=NDI=")
  = Some (py "NDI=").
Proof. reflexivity. Qed.

Example sorted_reverse_keeps_ties_in_order :
  Py.sorted_reverse snd [("a", 2); ("b", 5); ("c", 2); ("d", 5)]%string
  = [("b", 5); ("d", 5); ("a", 2); ("c", 2)]%string.
Proof. reflexivity. Qed.

Example finditer_takes_both_occurrences_in_one_match :
  Re.finditer (py "ab") (py "ab ab") = [{| Re.m_start := 0; Re.m_end := 5 |}].
Proof. reflexivity. Qed.

Example finditer_stops_at_line_feed :
  map (Re.group1 (py "x" ++ ["010"%char] ++ py "ab cd"))
      (Re.finditer (py "ab") (py "x" ++ ["010"%char] ++ py "ab cd"))
  = [py "ab cd"].
Proof. reflexivity. Qed.

Example finditer_empty_keyword :
  map (Re.group1 (py "abc")) (Re.finditer [] (py "abc")) = [py "abc"; []].
Proof. reflexivity. Qed.

(** ** Characters *)

Lemma all_chars_complete (c : ascii) : In c all_chars.
Proof.
  unfold all_chars. rewrite <- (ascii_nat_embedding c).
  apply in_map, in_seq. pose proof (nat_ascii_bounded c). lia.
Qed.

Lemma for_all_chars (P : ascii -> bool) :
  forallb P all_chars = true -> forall c, P c = true.
Proof.
  intros H c. rewrite forallb_forall in H. apply H, all_chars_complete.
Qed.

Lemma same_letter_lower (a b : ascii) :
  Spec.same_letter a b = Ascii.eqb (Py.lower_char a) (Py.lower_char b).
Proof.
  apply Bool.eqb_prop. revert b. apply for_all_chars with
    (P := fun b => Bool.eqb (Spec.same_letter a b)
                     (Ascii.eqb (Py.lower_char a) (Py.lower_char b))).
  revert a. apply for_all_chars with
    (P := fun a => forallb (fun b => Bool.eqb (Spec.same_letter a b)
                     (Ascii.eqb (Py.lower_char a) (Py.lower_char b))) all_chars).
  vm_compute. reflexivity.
Qed.



Lemma lower_length (s : str) : length (Py.lower s) = length s.
Proof. apply length_map. Qed.

Lemma lower_skipn (n : nat) (s : str) :
  Py.lower (skipn n s) = skipn n (Py.lower s).
Proof. unfold Py.lower. symmetry. apply skipn_map. Qed.

(** ** Counting: the code against the spec's words *)

Lemma matches_here_lower (K s : str) :
  Spec.matches_here K s = Py.startswith (Py.lower K) (Py.lower s).
Proof.
  revert s. induction K as [|k K IH]; intros [|c s]; simpl; try reflexivity.
  rewrite same_letter_lower, IH. reflexivity.
Qed.


Lemma match_count_from_lower (K s : str) (skip : nat) :
  K <> [] ->
  Spec.match_count_from K s skip = Py.count_scan (Py.lower K) (Py.lower s) skip.
Proof.
  intros HK. revert skip. induction s as [|c s IH]; intros skip.
  - destruct skip; simpl; [|reflexivity].
    destruct K; [congruence|reflexivity].
  - destruct skip as [|k].
    + cbn [Spec.match_count_from]. rewrite matches_here_lower.
      change (Py.lower (c :: s)) with (Py.lower_char c :: Py.lower s).
      cbn [Py.count_scan]. rewrite lower_length, !IH. reflexivity.
    + simpl. apply IH.
Qed.

Lemma match_count_from_empty (s : str) :
  Spec.match_count_from [] s 0 = S (length s).
Proof. induction s as [|c s IH]; simpl; [reflexivity|]. rewrite IH. reflexivity. Qed.

Lemma count_lower_is_match_count (T K : str) :
  Py.count (Py.lower T) (Py.lower K) = Spec.match_count T K.
Proof.
  unfold Spec.match_count. destruct K as [|k K].
  - rewrite match_count_from_empty. simpl. rewrite lower_length. reflexivity.
  - rewrite match_count_from_lower by discriminate. reflexivity.
Qed.


(** ** The loop of [search_keyword_in_pdfs] *)

Section SearchFacts.
Variables D W : Type.
Variable extract : D -> W -> str * W.
Variable pause : W -> W.

Lemma search_loop_extracted keyword pdf_links results w :
  fst (search_loop extract pause keyword pdf_links results w)
  = results ++ flat_map (contribution keyword)
                        (extracted extract pause pdf_links w).
Proof.
  revert results w. induction pdf_links as [|d rest IH]; intros results w.
  - simpl. rewrite app_nil_r. reflexivity.
  - simpl. destruct (extract d w) as [text w1]. destruct text as [|c text].
    + rewrite IH. reflexivity.
    + rewrite IH. cbn [flat_map]. unfold contribution at 2.
      cbn [fst snd]. rewrite <- app_assoc. reflexivity.
Qed.

Lemma search_results_extracted pdf_links keyword w :
  fst (search_keyword_in_pdfs extract pause pdf_links keyword w)
  = flat_map (contribution (Py.lower keyword))
             (extracted extract pause pdf_links w).
Proof. unfold search_keyword_in_pdfs. apply search_loop_extracted. Qed.

Lemma extracted_docs pdf_links w :
  map fst (extracted extract pause pdf_links w) = pdf_links.
Proof.
  revert w. induction pdf_links as [|d rest IH]; intros w; simpl.
  - reflexivity.
  - destruct (extract d w) as [text w1]. simpl. rewrite IH. reflexivity.
Qed.

Lemma in_search_results pdf_links keyword w r :
  In r (fst (search_keyword_in_pdfs extract pause pdf_links keyword w)) ->
  exists text,
    In (doc r, text) (extracted extract pause pdf_links w)
    /\ text <> []
    /\ Py.contains (Py.lower keyword) (Py.lower text) = true
    /\ r = {| doc := doc r;
              occurrences := find_occurrences (Py.lower keyword) text;
              count := Py.count (Py.lower text) (Py.lower keyword) |}.
Proof.
  rewrite search_results_extracted, in_flat_map.
  intros [[d text] [Hin Hr]]. unfold contribution in Hr. cbn [fst snd] in Hr.
  destruct text as [|c text]; [contradiction|].
  unfold search_document in Hr.
  destruct (Py.contains _ _) eqn:Hc; [|contradiction].
  destruct Hr as [<-|[]]. exists (c :: text). cbn [doc].
  repeat split; try assumption. discriminate.
Qed.

End SearchFacts.

(** ** [sorted(..., reverse=True)] *)

Section SortedFacts.
Variable A : Type.
Variable key : A -> nat.

Let ascending (a b : A) : Prop := key a <= key b.
Let descending (a b : A) : Prop := key b <= key a.
Let has_key (c : nat) (a : A) : bool := key a =? c.

Lemma insert_perm x l : Permutation (Py.insert key x l) (x :: l).
Proof.
  induction l as [|y tl IH]; simpl; [reflexivity|].
  destruct (key x <=? key y); [reflexivity|].
  rewrite IH. apply perm_swap.
Qed.

Lemma sorted_perm l : Permutation (Py.sorted key l) l.
Proof.
  induction l as [|x tl IH]; simpl; [reflexivity|].
  rewrite insert_perm, IH. reflexivity.
Qed.

Lemma insert_ascending x l :
  StronglySorted ascending l -> StronglySorted ascending (Py.insert key x l).
Proof.
  induction 1 as [|y tl Hs IH Hy]; simpl.
  - repeat constructor.
  - destruct (key x <=? key y) eqn:Hle.
    + apply Nat.leb_le in Hle. constructor; [constructor; assumption|].
      constructor; [exact Hle|].
      rewrite Forall_forall in Hy |- *. intros z Hz.
      specialize (Hy z Hz). unfold ascending in *. lia.
    + apply Nat.leb_gt in Hle. constructor; [exact IH|].
      rewrite Forall_forall in Hy |- *. intros z Hz.
      apply (Permutation_in _ (insert_perm x tl)) in Hz.
      destruct Hz as [<-|Hz]; [unfold ascending; lia|apply Hy, Hz].
Qed.

Lemma sorted_ascending l : StronglySorted ascending (Py.sorted key l).
Proof.
  induction l as [|x tl IH]; simpl; [constructor|].
  apply insert_ascending, IH.
Qed.

Lemma rev_descending l :
  StronglySorted ascending l -> StronglySorted descending (rev l).
Proof.
  induction 1 as [|y tl Hs IH Hy]; simpl; [constructor|].
  induction (rev tl) as [|z r IHr] eqn:E in IH, Hy, tl, Hs |- *.
  - simpl. repeat constructor.
  - assert (Hin : forall u, In u (z :: r) -> key y <= key u).
    { intros u Hu. rewrite Forall_forall in Hy. apply Hy.
      apply in_rev. rewrite E. exact Hu. }
    clear E Hy Hs IHr tl.
    revert Hin IH. generalize (z :: r) as l. clear z r.
    induction l as [|u l IHl]; intros Hin Hs; simpl.
    + repeat constructor.
    + inversion Hs as [|? ? Hs' Hu]; subst. constructor.
      * apply IHl; [intros; apply Hin; right; assumption|assumption].
      * apply Forall_app. split; [assumption|].
        constructor; [|constructor]. apply Hin. left. reflexivity.
Qed.

Lemma filter_insert c x l :
  filter (has_key c) (Py.insert key x l)
  = filter (has_key c) (x :: l).
Proof.
  induction l as [|y tl IH]; [reflexivity|].
  cbn [Py.insert]. destruct (key x <=? key y) eqn:Hle; [reflexivity|].
  apply Nat.leb_gt in Hle. cbn [filter] in *. rewrite IH. unfold has_key.
  destruct (key y =? c) eqn:Hy, (key x =? c) eqn:Hx; try reflexivity.
  apply Nat.eqb_eq in Hy, Hx. lia.
Qed.

Lemma sorted_stable c l :
  filter (has_key c) (Py.sorted key l) = filter (has_key c) l.
Proof.
  induction l as [|x tl IH]; [reflexivity|].
  cbn [Py.sorted fold_right]. rewrite filter_insert.
  cbn [filter]. fold (Py.sorted key tl). rewrite IH. reflexivity.
Qed.

Lemma sorted_reverse_perm l : Permutation (Py.sorted_reverse key l) l.
Proof.
  unfold Py.sorted_reverse.
  rewrite <- Permutation_rev, sorted_perm, <- Permutation_rev. reflexivity.
Qed.

Lemma sorted_reverse_descending l :
  StronglySorted descending (Py.sorted_reverse key l).
Proof. apply rev_descending, sorted_ascending. Qed.

Lemma sorted_reverse_stable c l :
  filter (has_key c) (Py.sorted_reverse key l) = filter (has_key c) l.
Proof.
  unfold Py.sorted_reverse.
  rewrite filter_rev, sorted_stable, filter_rev, rev_involutive. reflexivity.
Qed.

Lemma filter_strongly_sorted (R : A -> A -> Prop) (f : A -> bool) l :
  StronglySorted R l -> StronglySorted R (filter f l).
Proof.
  induction 1 as [|x tl Hs IH Hx]; simpl; [constructor|].
  destruct (f x); [|exact IH]. constructor; [exact IH|].
  rewrite Forall_forall in Hx |- *. intros y Hy.
  apply filter_In in Hy. apply Hx, Hy.
Qed.
End SortedFacts.

(** ** [str.count]: the scan from left to right finds the most occurrences *)

Section CountFacts.
Variable sub : str.
Hypothesis sub_not_empty : sub <> [].

Let k := length sub.
Let c (s : str) : nat := Py.count_scan sub s 0.

Lemma count_scan_skip s skip :
  Py.count_scan sub s skip = c (skipn skip s).
Proof.
  revert skip. induction s as [|a tl IH]; intros [|j]; try reflexivity.
  simpl. apply IH.
Qed.

Lemma count_cons a tl :
  c (a :: tl)
  = if Py.startswith sub (a :: tl) then S (c (skipn k (a :: tl))) else c tl.
Proof.
  unfold c at 1. cbn [Py.count_scan].
  destruct (Py.startswith sub (a :: tl)); [|reflexivity].
  rewrite count_scan_skip. f_equal. f_equal. unfold k.
  destruct sub as [|x sub']; [congruence|]. simpl. rewrite Nat.sub_0_r.
  reflexivity.
Qed.

Lemma startswith_nil : Py.startswith sub [] = false.
Proof. destruct sub; [congruence|reflexivity]. Qed.

Lemma k_positive : 1 <= k.
Proof. unfold k. destruct sub; [congruence|simpl; lia]. Qed.

Lemma count_tail_steps (n : nat) :
  (forall s, length s <= n -> c (tl s) <= c s) ->
  forall i s, length s <= n -> c (skipn i s) <= c s.
Proof.
  intros H. induction i as [|i IH]; intros s Hs; [reflexivity|].
  destruct s as [|a s']; [reflexivity|]. simpl in *.
  transitivity (c s'); [apply IH; lia|]. apply (H (a :: s')). simpl. lia.
Qed.

Lemma count_tail_and_window (n : nat) :
  forall s, length s <= n ->
    c (tl s) <= c s /\ forall j, j <= k -> c s <= S (c (skipn j s)).
Proof.
  induction n as [|n IH]; intros s Hs.
  - destruct s; [|simpl in Hs; lia]. split; [reflexivity|].
    intros j _. rewrite skipn_nil. unfold c. simpl. lia.
  - destruct s as [|a s']; [split; [reflexivity|]|].
    { intros j _. rewrite skipn_nil. unfold c. simpl. lia. }
    simpl in Hs. assert (Hs' : length s' <= n) by lia.
    pose proof k_positive as Hk.
    assert (Hsteps : forall i s, length s <= n -> c (skipn i s) <= c s).
    { apply count_tail_steps. intros s0 H0. apply IH, H0. }
    split.
    + cbn [tl]. rewrite count_cons.
      destruct (Py.startswith sub (a :: s')); [|reflexivity].
      replace (skipn k (a :: s')) with (skipn (k - 1) s')
        by (destruct k; [lia|]; simpl; rewrite Nat.sub_0_r; reflexivity).
      apply (proj2 (IH s' Hs')). lia.
    + intros j Hj. destruct j as [|j]; [simpl; lia|].
      rewrite count_cons. cbn [skipn].
      destruct (Py.startswith sub (a :: s')).
      * apply le_n_S.
        replace (skipn k (a :: s')) with (skipn (k - S j) (skipn j s')).
        -- apply Hsteps. rewrite length_skipn. lia.
        -- rewrite skipn_skipn. destruct k as [|k']; [lia|].
           simpl. f_equal. lia.
      * apply (proj2 (IH s' Hs')). lia.
Qed.

Lemma count_skipn i s : c (skipn i s) <= c s.
Proof.
  apply (count_tail_steps (n := length s)); [|reflexivity].
  intros s0 H0. apply (proj1 (count_tail_and_window s0 H0)).
Qed.

(** An occurrence at [p] leaves room for at most the occurrences the
    scan still finds behind it. *)
Lemma count_occurrence p s :
  Py.startswith sub (skipn p s) = true ->
  S (c (skipn (p + k) s)) <= c s.
Proof.
  revert s. induction p as [|p IH]; intros s H.
  - simpl in *. destruct s as [|a s']; [rewrite startswith_nil in H; discriminate|].
    rewrite count_cons, H. reflexivity.
  - destruct s as [|a s']; [simpl in H; rewrite startswith_nil in H; discriminate|].
    cbn [skipn] in H. rewrite count_cons.
    destruct (Py.startswith sub (a :: s')).
    + apply le_n_S. replace (S p + k) with (S p + k - k + k) by lia.
      rewrite <- skipn_skipn. apply count_skipn.
    + cbn [Nat.add skipn]. apply IH, H.
Qed.

End CountFacts.

(** ** The pattern and its matches *)













(** ** There are no more matches of the pattern than counted occurrences *)




(** ** The results follow the documents *)

Lemma contribution_docs D keyword (l : list (D * str)) :
  subsequence (map doc (flat_map (contribution keyword) l)) (map fst l).
Proof.
  induction l as [|[d text] l IH]; simpl; [constructor|].
  unfold contribution at 1. cbn [fst snd].
  destruct text as [|c text]; [apply subseq_skip, IH|].
  unfold search_document. destruct (Py.contains _ _); simpl.
  - apply subseq_keep, IH.
  - apply subseq_skip, IH.
Qed.

Lemma filter_swap A (f g : A -> bool) (l : list A) :
  filter f (filter g l) = filter g (filter f l).
Proof.
  induction l as [|x l IH]; simpl; [reflexivity|].
  destruct (f x) eqn:Hf, (g x) eqn:Hg; simpl; rewrite ?Hf, ?Hg, IH;
    reflexivity.
Qed.

(** ** Fetching *)

Lemma fetch_failure_caught A E r (k : response -> M A)
      (handler : exn -> world -> A * world) w e :
  fetch_fails E w r e ->
  try_except (response <- requests_get E r ;;
              raise_for_status response ;;; k response) handler w
  = handler e (log_request r w).
Proof.
  unfold try_except, bind, requests_get, raise_for_status.
  intros [H|(resp & H & Hs & ->)]; rewrite H; [reflexivity|].
  replace ((400 <=? status_code resp) && (status_code resp <? 600))
    with true; [reflexivity|].
  symmetry. apply andb_true_iff. split.
  - apply Nat.leb_le. lia.
  - apply Nat.ltb_lt. lia.
Qed.

Lemma fetch_success A E r (k : response -> M A) w resp :
  fetch_gives E w r resp ->
  (response <- requests_get E r ;;
   raise_for_status response ;;; k response) w
  = k resp (log_request r w).
Proof.
  unfold bind, requests_get, raise_for_status. intros [H Hs].
  rewrite H, Hs. reflexivity.
Qed.

Lemma fetch_outcome E w r :
  (exists e, fetch_fails E w r e) \/ (exists resp, fetch_gives E w r resp).
Proof.
  unfold fetch_fails, fetch_gives.
  destruct (remote E (now w) r) as [e|resp] eqn:H.
  - left. exists e. left. reflexivity.
  - destruct ((400 <=? status_code resp) && (status_code resp <? 600)) eqn:Hs.
    + left. exists (HTTPError (status_code resp)). right. exists resp.
      apply andb_true_iff in Hs. destruct Hs as [H1 H2].
      apply Nat.leb_le in H1. apply Nat.ltb_lt in H2.
      split; [reflexivity|]. split; [lia|reflexivity].
    + right. exists resp. split; [reflexivity|exact Hs].
Qed.

Lemma read_pages_all_texts (texts : list (option str)) (text : str) :
  read_pages (map inr texts) text = inr (text ++ concat (map page_text texts)).
Proof.
  revert text. induction texts as [|t texts IH]; intros text; simpl.
  - rewrite app_nil_r. reflexivity.
  - rewrite IH, <- app_assoc. reflexivity.
Qed.

(** ** The cache *)

Section CacheFacts.
Variables K V : Type.
Variable K_eq_dec : forall a b : K, {a = b} + {a <> b}.
Variable ttl : N.
Variable f : K -> world -> V * world.

Lemma cache_data_miss k c w :
  fresh ttl c k (now w) = None ->
  cache_data K_eq_dec ttl f k (c, w)
  = (fst (f k w),
     (store K_eq_dec k
            {| value := fst (f k w);
               shown_in_run := skipn (length (notices w))
                                     (notices (snd (f k w)));
               stored_at := now (snd (f k w)) |} c,
      snd (f k w))).
Proof.
  intros H. unfold cache_data. rewrite H. destruct (f k w). reflexivity.
Qed.

Lemma cache_data_hit k c w e :
  fresh ttl c k (now w) = Some e ->
  cache_data K_eq_dec ttl f k (c, w)
  = (value e, (c, replay (shown_in_run e) w)).
Proof. intros H. unfold cache_data. rewrite H. reflexivity. Qed.

Lemma fresh_stored k e (c c' : cache K V) t' :
  c' k = store K_eq_dec k e c k ->
  (t' < stored_at e + ttl)%N ->
  fresh ttl c' k t' = Some e.
Proof.
  intros Hc Ht. unfold fresh. rewrite Hc. unfold store.
  destruct (K_eq_dec k k) as [_|Hne]; [|congruence].
  apply N.ltb_lt in Ht. rewrite Ht. reflexivity.
Qed.

Lemma fresh_expired k e (c c' : cache K V) t' :
  c' k = store K_eq_dec k e c k ->
  (stored_at e + ttl <= t')%N ->
  fresh ttl c' k t' = None.
Proof.
  intros Hc Ht. unfold fresh. rewrite Hc. unfold store.
  destruct (K_eq_dec k k) as [_|Hne]; [|congruence].
  apply N.ltb_ge in Ht. rewrite Ht. reflexivity.
Qed.

(** Two calls for [k], the first with nothing fresh in the cache, the
    second while the entry it stored is there and younger than [ttl]:
    the second returns the value of the first and does not run [f]; it
    shows the notices of the first run again. *)
Lemma cache_data_twice k c c' w w' :
  let first := cache_data K_eq_dec ttl f k (c, w) in
  fresh ttl c k (now w) = None ->
  c' k = fst (snd first) k ->
  (now w' < now (snd (snd first)) + ttl)%N ->
  first = (fst (f k w), (fst (snd first), snd (f k w)))
  /\ exists msgs,
       cache_data K_eq_dec ttl f k (c', w')
       = (fst first, (c', replay msgs w')).
Proof.
  intros first Hmiss Hc Ht. unfold first in *.
  rewrite (cache_data_miss k c w Hmiss) in *. cbn [fst snd] in *.
  split; [reflexivity|].
  exists (skipn (length (notices w)) (notices (snd (f k w)))).
  pose proof (@fresh_stored k _ c c' (now w') Hc Ht) as Hf.
  unfold cache_data at 1. rewrite Hf. reflexivity.
Qed.
End CacheFacts.

(** ** The fetches of variant 5c3fc3 *)

Lemma listing_sends_one_5c3fc3 E base w :
  sent (snd (F5c3fc3.get_all_pdf_links E base w))
  = sent w ++ [listing_request_5c3fc3 base].
Proof.
  destruct (fetch_outcome E w (listing_request_5c3fc3 base))
    as [[e' H]|[resp H]].
  - unfold F5c3fc3.get_all_pdf_links. fold (listing_request_5c3fc3 base).
    rewrite (fetch_failure_caught _ _ H). reflexivity.
  - unfold F5c3fc3.get_all_pdf_links, try_except.
    fold (listing_request_5c3fc3 base).
    rewrite (fetch_success _ H). unfold lift.
    destruct (F5c3fc3.download_links _ _); reflexivity.
Qed.

Lemma extract_sends_one_5c3fc3 E info w :
  sent (snd (F5c3fc3.extract_text_from_pdf_body E info w))
  = sent w ++ [document_request_5c3fc3 (F5c3fc3.url info)].
Proof.
  destruct (fetch_outcome E w (document_request_5c3fc3 (F5c3fc3.url info)))
    as [[e' H]|[resp H]].
  - unfold F5c3fc3.extract_text_from_pdf_body.
    fold (document_request_5c3fc3 (F5c3fc3.url info)).
    rewrite (fetch_failure_caught _ _ H). reflexivity.
  - unfold F5c3fc3.extract_text_from_pdf_body, try_except.
    fold (document_request_5c3fc3 (F5c3fc3.url info)).
    rewrite (fetch_success _ H).
    unfold try_except_PdfReadError, bind, lift.
    destruct (PdfReader E (content resp)) as [[]|pages]; try reflexivity.
    destruct (read_pages pages []) as [[]|text]; reflexivity.
Qed.

Lemma listing_failure_5c3fc3 E base w e :
  fetch_fails E w (listing_request_5c3fc3 base) e ->
  F5c3fc3.get_all_pdf_links E base w
  = ([], show (StError e) (log_request (listing_request_5c3fc3 base) w)).
Proof.
  intros H. unfold F5c3fc3.get_all_pdf_links.
  fold (listing_request_5c3fc3 base).
  rewrite (fetch_failure_caught _ _ H). reflexivity.
Qed.

Lemma extract_failure_5c3fc3 E info w e :
  fetch_fails E w (document_request_5c3fc3 (F5c3fc3.url info)) e ->
  F5c3fc3.extract_text_from_pdf_body E info w
  = ([], show (StWarning (F5c3fc3.title info) e)
              (log_request (document_request_5c3fc3 (F5c3fc3.url info)) w)).
Proof.
  intros H. unfold F5c3fc3.extract_text_from_pdf_body.
  fold (document_request_5c3fc3 (F5c3fc3.url info)).
  rewrite (fetch_failure_caught _ _ H). reflexivity.
Qed.

(** ** [str.strip] *)

Lemma lstrip_spec (s : str) :
  exists ws, s = ws ++ Py.lstrip s
             /\ forallb Py.isspace ws = true
             /\ match Py.lstrip s with
                | [] => True
                | c :: _ => Py.isspace c = false
                end.
Proof.
  induction s as [|c s (ws & Hs & Hws & Hhd)]; [exists []; repeat split|].
  simpl. destruct (Py.isspace c) eqn:Hc.
  - exists (c :: ws). simpl. rewrite Hc, Hws, <- Hs. repeat split. exact Hhd.
  - exists []. repeat split. exact Hc.
Qed.

Lemma strip_spec (s : str) :
  exists ws1 ws2,
    s = ws1 ++ Py.strip s ++ ws2
    /\ forallb Py.isspace ws1 = true
    /\ forallb Py.isspace ws2 = true
    /\ trimmed (Py.strip s).
Proof.
  destruct (lstrip_spec s) as (ws1 & Hs & Hws1 & Hhd).
  destruct (lstrip_spec (rev (Py.lstrip s))) as (ws2 & Hr & Hws2 & Hlast).
  assert (Hl : Py.lstrip s = Py.strip s ++ rev ws2).
  { unfold Py.strip, Py.rstrip. rewrite <- rev_app_distr, <- Hr.
    symmetry. apply rev_involutive. }
  exists ws1, (rev ws2). split; [rewrite <- Hl; exact Hs|].
  split; [exact Hws1|]. split.
  - rewrite forallb_forall in Hws2 |- *. intros x Hx.
    apply Hws2, in_rev, Hx.
  - split.
    + rewrite Hl in Hhd. destruct (Py.strip s); [exact I|exact Hhd].
    + unfold Py.strip, Py.rstrip. rewrite rev_involutive. exact Hlast.
Qed.



(** ** [main] *)

Lemma main_shows D W (extract : D -> W -> str * W) (pause : W -> W)
      (links : W -> list D * W) (keyword : str) (min_matches : nat) (w : W) :
  keyword <> [] ->
  fst (main extract pause links keyword min_matches w)
  = match fst (links w) with
    | [] => []
    | _ :: _ =>
        shown min_matches
              (fst (search_keyword_in_pdfs extract pause (fst (links w))
                                           keyword (snd (links w))))
    end.
Proof.
  intros Hk. unfold main. destruct keyword as [|k keyword]; [congruence|].
  destruct (links w) as [[|d l] w1]; [reflexivity|]. cbn [fst snd].
  destruct (search_keyword_in_pdfs extract pause (d :: l) (k :: keyword) w1).
  reflexivity.
Qed.

(** ** The document fetch of variants 002b0f and 83bd0a *)

Lemma extract_sends_one_002b0f E u w :
  sent (snd (F002b0f.extract_text_from_pdf_body E u w))
  = sent w ++ [request_002b0f u].
Proof.
  destruct (fetch_outcome E w (request_002b0f u)) as [[e' H]|[resp H]].
  - unfold F002b0f.extract_text_from_pdf_body. fold (request_002b0f u).
    rewrite (fetch_failure_caught _ _ H). reflexivity.
  - unfold F002b0f.extract_text_from_pdf_body, try_except.
    fold (request_002b0f u). rewrite (fetch_success _ H).
    unfold bind, lift.
    destruct (PdfReader E (content resp)) as [e|pages]; [reflexivity|].
    destruct (read_pages pages []) as [e|text]; reflexivity.
Qed.

Lemma extract_failure_002b0f E u w e :
  fetch_fails E w (request_002b0f u) e ->
  F002b0f.extract_text_from_pdf_body E u w
  = ([], show (StWarning u e) (log_request (request_002b0f u) w)).
Proof.
  intros H. unfold F002b0f.extract_text_from_pdf_body.
  fold (request_002b0f u). rewrite (fetch_failure_caught _ _ H). reflexivity.
Qed.

Lemma extract_sends_one_83bd0a E u w :
  sent (snd (F83bd0a.extract_text_from_pdf_body E u w))
  = sent w ++ [document_request_83bd0a u].
Proof.
  destruct (fetch_outcome E w (document_request_83bd0a u))
    as [[e' H]|[resp H]].
  - unfold F83bd0a.extract_text_from_pdf_body.
    fold (document_request_83bd0a u).
    rewrite (fetch_failure_caught _ _ H). reflexivity.
  - unfold F83bd0a.extract_text_from_pdf_body, try_except.
    fold (document_request_83bd0a u). rewrite (fetch_success _ H).
    unfold try_except_PdfReadError, bind, lift.
    destruct (PdfReader E (content resp)) as [[]|pages]; try reflexivity.
    destruct (read_pages pages []) as [[]|text]; reflexivity.
Qed.

Lemma extract_failure_83bd0a E u w e :
  fetch_fails E w (document_request_83bd0a u) e ->
  F83bd0a.extract_text_from_pdf_body E u w
  = ([], show (StWarning u e) (log_request (document_request_83bd0a u) w)).
Proof.
  intros H. unfold F83bd0a.extract_text_from_pdf_body.
  fold (document_request_83bd0a u).
  rewrite (fetch_failure_caught _ _ H). reflexivity.
Qed.

(** The text, once the payload is there: the same in the three variants. *)
Lemma extract_text_of_payload E resp (u : str) (info : F5c3fc3.pdf_info) w :
  let text :=
    match PdfReader E (content resp) with
    | inr pages =>
        match read_pages pages [] with
        | inr text => text
        | inl _ => []
        end
    | inl _ => []
    end in
  (fetch_gives E w (request_002b0f u) resp ->
   fst (F002b0f.extract_text_from_pdf_body E u w) = text)
  /\ (fetch_gives E w (document_request_83bd0a u) resp ->
      fst (F83bd0a.extract_text_from_pdf_body E u w) = text)
  /\ (fetch_gives E w (document_request_5c3fc3 (F5c3fc3.url info)) resp ->
      fst (F5c3fc3.extract_text_from_pdf_body E info w) = text).
Proof.
  intros text. unfold text. split; [|split]; intros H.
  - unfold F002b0f.extract_text_from_pdf_body, try_except.
    fold (request_002b0f u). rewrite (fetch_success _ H). unfold bind, lift.
    destruct (PdfReader E (content resp)) as [e|pages]; [reflexivity|].
    destruct (read_pages pages []) as [e|t]; reflexivity.
  - unfold F83bd0a.extract_text_from_pdf_body, try_except.
    fold (document_request_83bd0a u). rewrite (fetch_success _ H).
    unfold try_except_PdfReadError, bind, lift.
    destruct (PdfReader E (content resp)) as [[]|pages]; try reflexivity.
    destruct (read_pages pages []) as [[]|t]; reflexivity.
  - unfold F5c3fc3.extract_text_from_pdf_body, try_except.
    fold (document_request_5c3fc3 (F5c3fc3.url info)).
    rewrite (fetch_success _ H).
    unfold try_except_PdfReadError, bind, lift.
    destruct (PdfReader E (content resp)) as [[]|pages]; try reflexivity.
    destruct (read_pages pages []) as [[]|t]; reflexivity.
Qed.

(** The second of two calls within the 24 hours, in variants 002b0f and
    83bd0a. *)
Lemma second_call_002b0f E u (c c' : cache str str) w w' :
  let first := F002b0f.extract_text_from_pdf E u (c, w) in
  let second := F002b0f.extract_text_from_pdf E u (c', w') in
  fresh ttl_24h c u (now w) = None ->
  c' u = fst (snd first) u ->
  (now w' < now (snd (snd first)) + ttl_24h)%N ->
  sent (snd (snd first)) = sent w ++ [request_002b0f u]
  /\ fst second = fst first
  /\ sent (snd (snd second)) = sent w'.
Proof.
  intros first second Hmiss Hc Ht.
  destruct (@cache_data_twice _ _ str_eq_dec ttl_24h
              (F002b0f.extract_text_from_pdf_body E) u c c' w w'
              Hmiss Hc Ht) as [H1 [msgs H2]].
  assert (H1' : first
                = (fst (F002b0f.extract_text_from_pdf_body E u w),
                   (fst (snd first),
                    snd (F002b0f.extract_text_from_pdf_body E u w))))
    by exact H1.
  assert (H2' : second = (fst first, (c', replay msgs w'))) by exact H2.
  clear H1 H2. rewrite H2'. cbn [fst snd replay sent].
  split; [|split; reflexivity].
  rewrite H1'. cbn [fst snd]. apply extract_sends_one_002b0f.
Qed.

Lemma second_call_83bd0a E u (c c' : cache str str) w w' :
  let first := F83bd0a.extract_text_from_pdf E u (c, w) in
  let second := F83bd0a.extract_text_from_pdf E u (c', w') in
  fresh ttl_24h c u (now w) = None ->
  c' u = fst (snd first) u ->
  (now w' < now (snd (snd first)) + ttl_24h)%N ->
  sent (snd (snd first)) = sent w ++ [document_request_83bd0a u]
  /\ fst second = fst first
  /\ sent (snd (snd second)) = sent w'.
Proof.
  intros first second Hmiss Hc Ht.
  destruct (@cache_data_twice _ _ str_eq_dec ttl_24h
              (F83bd0a.extract_text_from_pdf_body E) u c c' w w'
              Hmiss Hc Ht) as [H1 [msgs H2]].
  assert (H1' : first
                = (fst (F83bd0a.extract_text_from_pdf_body E u w),
                   (fst (snd first),
                    snd (F83bd0a.extract_text_from_pdf_body E u w))))
    by exact H1.
  assert (H2' : second = (fst first, (c', replay msgs w'))) by exact H2.
  clear H1 H2. rewrite H2'. cbn [fst snd replay sent].
  split; [|split; reflexivity].
  rewrite H1'. cbn [fst snd]. apply extract_sends_one_83bd0a.
Qed.

(** * The claims *)

Section Claims.
Variables D W : Type.
Variable extract : D -> W -> str * W.
Variable pause : W -> W.

Let search := search_keyword_in_pdfs extract pause.
Let texts := extracted extract pause.




(** C3. The results are shown by descending count; results with the
    same count stand in the order the search found them, which is the
    order of their documents in the list searched. *)
Theorem shown_descending_and_stable
  (pdf_links : list D) (K : str) (w : W) (min_matches : nat) :
  let results := fst (search pdf_links K w) in
  StronglySorted (fun a b => count b <= count a) (shown min_matches results)
  /\ (forall c,
        filter (fun r => count r =? c) (shown min_matches results)
        = filter (fun r => count r =? c)
                 (filter (fun r => negb (count r <? min_matches)) results))
  /\ subsequence (map doc results) pdf_links.
Proof.
  intros results. unfold shown. split; [|split].
  - apply filter_strongly_sorted, sorted_reverse_descending.
  - intros c. rewrite filter_swap, sorted_reverse_stable.
    apply filter_swap.
  - unfold results, search. rewrite search_results_extracted.
    rewrite <- (extracted_docs extract pause pdf_links w) at 2.
    apply contribution_docs.
Qed.

(** C4. The threshold is applied to the ranked results: a result that
    is shown is one of the results of the search, unchanged, and its
    count is still the number of matches in the whole text of its
    document. *)
Theorem threshold_keeps_results
  (pdf_links : list D) (K : str) (w : W) (min_matches : nat)
  (r : result D) :
  let results := fst (search pdf_links K w) in
  In r (shown min_matches results) ->
  shown min_matches results
  = filter (fun r => negb (count r <? min_matches))
           (Py.sorted_reverse count results)
  /\ In r results
  /\ min_matches <= count r
  /\ exists T, In (doc r, T) (texts pdf_links w)
               /\ count r = Spec.match_count T K.
Proof.
  intros results Hr. split; [reflexivity|].
  unfold shown in Hr. apply filter_In in Hr. destruct Hr as [Hr Hm].
  apply (Permutation_in _ (sorted_reverse_perm count results)) in Hr.
  split; [exact Hr|]. split.
  - apply negb_true_iff, Nat.ltb_ge in Hm. exact Hm.
  - destruct (in_search_results _ _ _ _ _ _ Hr) as (T & Hin & _ & _ & Heq).
    exists T. split; [exact Hin|]. rewrite Heq. cbn [count].
    apply count_lower_is_match_count.
Qed.
End Claims.

(** C7. Given the payload of a document, the text extraction of 5c3fc3
    returns a string whatever the PDF reader does: the text read from
    the pages, or the empty string when the reader or a page raises.
    When every page gives its text, the result is the texts in page
    order, a page without text counting as the empty string; when the
    payload is no PDF, it is the empty string. *)
Theorem extract_concatenates_or_empty
  (E : libs) (info : F5c3fc3.pdf_info) (w : world) (resp : response) :
  fetch_gives E w (document_request_5c3fc3 (F5c3fc3.url info)) resp ->
  fst (F5c3fc3.extract_text_from_pdf_body E info w)
  = match PdfReader E (content resp) with
    | inr pages =>
        match read_pages pages [] with
        | inr text => text
        | inl _ => []
        end
    | inl _ => []
    end
  /\ (forall texts : list (option str),
        PdfReader E (content resp) = inr (map inr texts) ->
        fst (F5c3fc3.extract_text_from_pdf_body E info w)
        = concat (map page_text texts))
  /\ (forall e,
        PdfReader E (content resp) = inl e ->
        fst (F5c3fc3.extract_text_from_pdf_body E info w) = []).
Proof.
  intros Hf.
  destruct (extract_text_of_payload E resp [] info w) as (_ & _ & H).
  specialize (H Hf). cbv zeta in H. rewrite H.
  split; [reflexivity|]. split.
  - intros texts Ht. rewrite Ht, read_pages_all_texts. reflexivity.
  - intros e He. rewrite He. reflexivity.
Qed.

(** C9, as the code has it. In variant 5c3fc3 the listing fetch and the
    document fetch, and in variant 83bd0a the document fetch, each send
    one request, with the [User-Agent] header and a timeout. In every
    variant a fetch that fails, by an exception of [requests.get] or by a
    4xx or 5xx status, does not make the function raise: the listing
    comes back empty with an error on the screen, the page or the text
    comes back empty with a warning. *)
Theorem fetches_identified_and_failures_caught
  (E : libs) (base u : str) (info : F5c3fc3.pdf_info) (w : world) :
  (sent (snd (F5c3fc3.get_all_pdf_links E base w))
   = sent w ++ [listing_request_5c3fc3 base]
   /\ sent (snd (F5c3fc3.extract_text_from_pdf_body E info w))
      = sent w ++ [document_request_5c3fc3 (F5c3fc3.url info)]
   /\ sent (snd (F83bd0a.extract_text_from_pdf_body E u w))
      = sent w ++ [document_request_83bd0a u]
   /\ Forall identified [listing_request_5c3fc3 base;
                         document_request_5c3fc3 (F5c3fc3.url info);
                         document_request_83bd0a u])
  /\ caught E (F5c3fc3.get_all_pdf_links E base)
            (listing_request_5c3fc3 base) StError
  /\ caught E (F5c3fc3.extract_text_from_pdf_body E info)
            (document_request_5c3fc3 (F5c3fc3.url info))
            (StWarning (F5c3fc3.title info))
  /\ caught E (F83bd0a.get_all_pdf_links E base)
            (page_request_83bd0a base) StError
  /\ caught E (F83bd0a.scan_page E u) (page_request_83bd0a u) (StWarning u)
  /\ caught E (F83bd0a.extract_text_from_pdf_body E u)
            (document_request_83bd0a u) (StWarning u)
  /\ caught E (F002b0f.get_all_pdf_links E base)
            (request_002b0f base) StError
  /\ caught E (F002b0f.extract_text_from_pdf_body E u)
            (request_002b0f u) (StWarning u).
Proof.
  split.
  - split; [apply listing_sends_one_5c3fc3|].
    split; [apply extract_sends_one_5c3fc3|].
    split; [apply extract_sends_one_83bd0a|].
    repeat constructor; simpl; auto; discriminate.
  - repeat split; intros w0 e H.
    + apply listing_failure_5c3fc3, H.
    + apply extract_failure_5c3fc3, H.
    + unfold F83bd0a.get_all_pdf_links. fold (page_request_83bd0a base).
      rewrite (fetch_failure_caught _ _ H). reflexivity.
    + unfold F83bd0a.scan_page. fold (page_request_83bd0a u).
      rewrite (fetch_failure_caught _ _ H). reflexivity.
    + apply extract_failure_83bd0a, H.
    + unfold F002b0f.get_all_pdf_links. fold (request_002b0f base).
      rewrite (fetch_failure_caught _ _ H). reflexivity.
    + apply extract_failure_002b0f, H.
Qed.


(** ** Discovery *)

Lemma scan_page_83bd0a E u w :
  fst (F83bd0a.scan_page E u w) = page_links_83bd0a E (now w) u
  /\ sent (snd (F83bd0a.scan_page E u w)) = sent w ++ [page_request_83bd0a u]
  /\ now (snd (F83bd0a.scan_page E u w)) = now w.
Proof.
  unfold F83bd0a.scan_page, page_links_83bd0a, try_except, bind,
    requests_get, raise_for_status.
  fold (page_request_83bd0a u).
  destruct (remote E (now w) (page_request_83bd0a u)) as [e|resp];
    [repeat split|].
  destruct ((400 <=? status_code resp) && (status_code resp <? 600));
    repeat split.
Qed.

Lemma scan_pages_83bd0a E urls :
  forall pdf_links w,
    fst (F83bd0a.scan_pages E urls pdf_links w)
    = pdf_links ++ flat_map (page_links_83bd0a E (now w)) urls
    /\ sent (snd (F83bd0a.scan_pages E urls pdf_links w))
       = sent w ++ map page_request_83bd0a urls.
Proof.
  induction urls as [|u urls IH]; intros pdf_links w; simpl.
  - rewrite !app_nil_r. split; reflexivity.
  - destruct (scan_page_83bd0a E u w) as (H1 & H2 & H3).
    destruct (F83bd0a.scan_page E u w) as [found w1]. cbn [fst snd] in *.
    destruct (IH (pdf_links ++ found) w1) as [I1 I2].
    rewrite I1, I2, H1, H2, H3, <- !app_assoc. split; reflexivity.
Qed.

Lemma demo_set_iter_ok : set_iter_ok Demo.E.
Proof.
  intros l. split; [apply NoDup_nodup|]. intros x. apply nodup_In.
Qed.

(** C8, as the code has it. In variant 83bd0a, when the listing page has
    a pager, the addresses of its links, each taken once, are fetched one
    after the other behind the listing itself, the address of the listing
    included when the pager names it. Nothing else is fetched: the links
    to PDFs of these pages are added to those of the listing, and their
    own pagers are not looked at. *)
Theorem pagination_one_level
  (E : libs) (base : str) (w : world) (resp : response)
  (links : list anchor) :
  let soup := BeautifulSoup E (content resp) in
  let page_urls := map (fun a => urljoin E base (href a)) links in
  let run := F83bd0a.get_all_pdf_links E base w in
  set_iter_ok E ->
  fetch_gives E w (page_request_83bd0a base) resp ->
  pagination soup = Some links ->
  sent (snd run)
  = sent w ++ page_request_83bd0a base
              :: map page_request_83bd0a (set_iter E page_urls)
  /\ (forall u, In u page_urls ->
                count_occ str_eq_dec (set_iter E page_urls) u = 1)
  /\ (forall u, In u (set_iter E page_urls) -> In u page_urls)
  /\ fst run
     = set_iter E (pdf_hrefs E base (anchors soup)
                   ++ flat_map (page_links_83bd0a E (now w))
                               (set_iter E page_urls)).
Proof.
  intros soup page_urls run Hset Hf Hp.
  assert (Hrun : run
    = (set_iter E (fst (F83bd0a.scan_pages E (set_iter E page_urls)
                          (pdf_hrefs E base (anchors soup))
                          (show StInfo (log_request (page_request_83bd0a base) w)))),
       snd (F83bd0a.scan_pages E (set_iter E page_urls)
              (pdf_hrefs E base (anchors soup))
              (show StInfo (log_request (page_request_83bd0a base) w))))).
  { unfold run, F83bd0a.get_all_pdf_links, try_except.
    fold (page_request_83bd0a base). rewrite (fetch_success _ Hf).
    fold soup. rewrite Hp. fold page_urls. unfold bind, effect, ret.
    destruct (F83bd0a.scan_pages _ _ _ _). reflexivity. }
  rewrite Hrun. cbn [fst snd].
  destruct (scan_pages_83bd0a E (set_iter E page_urls)
              (pdf_hrefs E base (anchors soup))
              (show StInfo (log_request (page_request_83bd0a base) w)))
    as [H1 H2].
  rewrite H1, H2. cbn [show log_request sent now].
  split; [rewrite <- app_assoc; reflexivity|].
  split; [|split; [|reflexivity]].
  - intros u Hu. destruct (Hset page_urls) as [Hnd Hin].
    apply NoDup_count_occ'; [exact Hnd|]. apply Hin, Hu.
  - intros u Hu. apply (proj2 (Hset page_urls)), Hu.
Qed.

(** C6. Variant 002b0f returns a link as often as the page has it, and
    so does 5c3fc3, which keeps both titles of a download linked twice;
    the claim does not hold for them. *)
Theorem duplicate_links_are_kept :
  fst (F002b0f.get_all_pdf_links Demo.E Demo.listing Demo.w0)
  = [Demo.a_pdf; py "http://site/B.PDF"; Demo.a_pdf]
  /\ ~ NoDup (fst (F002b0f.get_all_pdf_links Demo.E Demo.listing Demo.w0))
  /\ fst (F5c3fc3.get_all_pdf_links Demo.E Demo.listing Demo.w0)
     = [Demo.minutes;
        {| F5c3fc3.url := F5c3fc3.url Demo.minutes;
           F5c3fc3.title := py "Download";
           F5c3fc3.id := F5c3fc3.id Demo.minutes |}].
Proof.
  split; [vm_compute; reflexivity|]. split; [|vm_compute; reflexivity].
  intros H. vm_compute in H. inversion H as [|? ? Hin _]. apply Hin.
  right. left. reflexivity.
Qed.

(** Variant 83bd0a, for comparison, returns every address once. *)
Lemma links_without_duplicates_83bd0a (E : libs) (base : str) (w : world) :
  set_iter_ok E -> NoDup (fst (F83bd0a.get_all_pdf_links E base w)).
Proof.
  intros Hset.
  destruct (fetch_outcome E w (page_request_83bd0a base)) as [[e H]|[resp H]].
  - unfold F83bd0a.get_all_pdf_links. fold (page_request_83bd0a base).
    rewrite (fetch_failure_caught _ _ H). constructor.
  - unfold F83bd0a.get_all_pdf_links, try_except.
    fold (page_request_83bd0a base). rewrite (fetch_success _ H).
    destruct (pagination (BeautifulSoup E (content resp))) as [links|].
    + unfold bind, effect, ret.
      destruct (F83bd0a.scan_pages _ _ _ _). apply Hset.
    + apply Hset.
Qed.

(** * Counterexamples and instances *)


(** C8 does not hold as stated: the pager of [Demo.listing] names the
    listing itself, which is fetched a second time. *)
Lemma listing_fetched_again :
  set_iter_ok Demo.E
  /\ map req_url
         (sent (snd (F83bd0a.get_all_pdf_links Demo.E Demo.listing Demo.w0)))
     = [Demo.listing; Demo.listing; Demo.page2].
Proof. split; [apply demo_set_iter_ok|vm_compute; reflexivity]. Qed.

(** C9 does not hold as stated: variant 002b0f sends its request without
    header and without timeout, and an answer with status 304 is taken
    for a page in variant 5c3fc3, no error shown. *)
Lemma fetch_without_timeout_and_status_304 :
  sent (snd (F002b0f.get_all_pdf_links Demo.E Demo.listing Demo.w0))
  = [{| req_url := Demo.listing; req_headers := []; req_timeout := None |}]
  /\ remote Demo.E 0 (listing_request_5c3fc3 Demo.unchanged)
     = inr {| status_code := 304; content := [] |}
  /\ F5c3fc3.get_all_pdf_links Demo.E Demo.unchanged Demo.w0
     = ([], {| now := 0;
               sent := [listing_request_5c3fc3 Demo.unchanged];
               notices := [] |}).
Proof. repeat split; vm_compute; reflexivity. Qed.




Lemma threshold_keeps_results_witness :
  In Demo.found
     (fst (F002b0f.search_keyword_in_pdfs Demo.E Demo.docs (py "Paracetamol")
                                          Demo.st0))
  /\ 2 <= count Demo.found.
Proof.
  destruct (@threshold_keeps_results _ _
              (F002b0f.extract_text_from_pdf Demo.E) (on_world (sleep 100))
              Demo.docs (py "Paracetamol") Demo.st0 2 Demo.found)
    as (_ & H1 & H2 & _).
  - vm_compute. left. reflexivity.
  - split; [exact H1|exact H2].
Defined.


Lemma extract_concatenates_or_empty_witness :
  fst (F5c3fc3.extract_text_from_pdf_body Demo.E Demo.minutes Demo.w0)
  = py "the drug Paracetamol was administered. PARACETAMOL 500 mg".
Proof.
  destruct (@extract_concatenates_or_empty Demo.E Demo.minutes Demo.w0
              {| status_code := 200; content := [Byte.x0a] |})
    as (_ & H & _).
  - split; vm_compute; reflexivity.
  - apply (H [Some (py "the drug Paracetamol was administered. ");
              None;
              Some (py "PARACETAMOL 500 mg")]).
    reflexivity.
Defined.

Lemma pagination_one_level_witness :
  sent (snd (F83bd0a.get_all_pdf_links Demo.E Demo.listing Demo.w0))
  = map page_request_83bd0a [Demo.listing; Demo.listing; Demo.page2]
  /\ fst (F83bd0a.get_all_pdf_links Demo.E Demo.listing Demo.w0)
     = [py "http://site/B.PDF"; Demo.a_pdf; Demo.c_pdf].
Proof.
  destruct (@pagination_one_level Demo.E Demo.listing Demo.w0
              {| status_code := 200; content := [Byte.x01] |}
              [Demo.link "list"; Demo.link "list?page=2";
               Demo.link "list?page=2"])
    as (H1 & _ & _ & H2).
  - apply demo_set_iter_ok.
  - split; vm_compute; reflexivity.
  - reflexivity.
  - split; [rewrite H1|rewrite H2]; vm_compute; reflexivity.
Defined.

Lemma fetches_identified_and_failures_caught_witness :
  fetch_fails Demo.E Demo.w0 (listing_request_5c3fc3 Demo.late_pdf) Timeout
  /\ F5c3fc3.get_all_pdf_links Demo.E Demo.late_pdf Demo.w0
     = ([], {| now := 0;
               sent := [listing_request_5c3fc3 Demo.late_pdf];
               notices := [StError Timeout] |})
  /\ fetch_fails Demo.E Demo.w0 (request_002b0f Demo.b_pdf) (HTTPError 404)
  /\ F002b0f.extract_text_from_pdf_body Demo.E Demo.b_pdf Demo.w0
     = ([], {| now := 0;
               sent := [request_002b0f Demo.b_pdf];
               notices := [StWarning Demo.b_pdf (HTTPError 404)] |}).
Proof.
  destruct (@fetches_identified_and_failures_caught Demo.E Demo.late_pdf
              Demo.b_pdf Demo.late Demo.w0)
    as (_ & H1 & _ & _ & _ & _ & _ & H2).
  assert (F1 : fetch_fails Demo.E Demo.w0
                 (listing_request_5c3fc3 Demo.late_pdf) Timeout)
    by (left; vm_compute; reflexivity).
  assert (F2 : fetch_fails Demo.E Demo.w0 (request_002b0f Demo.b_pdf)
                 (HTTPError 404)).
  { right. exists {| status_code := 404; content := [] |}.
    split; [vm_compute; reflexivity|]. split; [simpl; lia|reflexivity]. }
  split; [exact F1|]. split; [rewrite (H1 _ _ F1); reflexivity|].
  split; [exact F2|]. rewrite (H2 _ _ F2). reflexivity.
Defined.

(** * Further properties of the code *)

(** ** More on the built-ins *)

Example split_last_examples :
  Py.split_last "/"%char (py "http://site/dir/a.pdf") = py "a.pdf"
  /\ Py.split_last "/"%char (py "http://site/dir/") = []
  /\ Py.split_last "/"%char (py "a.pdf") = py "a.pdf".
Proof. repeat split; reflexivity. Qed.

Example sub_examples :
  highlighted (py "ab") (py "xAbyab") = py "x**Ab**y**ab**"
  /\ highlighted (py "aa") (py "aaa") = py "**aa**a"
  /\ highlighted [] (py "ab") = py "****a****b****".
Proof. repeat split; reflexivity. Qed.

Lemma startswith_spec (sub s : str) :
  Py.startswith sub s = true <-> exists rest, s = sub ++ rest.
Proof.
  revert s. induction sub as [|k sub IH]; intros s; simpl.
  - split; [intros _; exists s; reflexivity|reflexivity].
  - destruct s as [|c s]; [split; [discriminate|intros [rest H]; discriminate]|].
    rewrite andb_true_iff, Ascii.eqb_eq, IH. split.
    + intros [-> [rest ->]]. exists rest. reflexivity.
    + intros [rest H]. injection H as -> ->. split; [reflexivity|].
      exists rest. reflexivity.
Qed.

Lemma startswith_app (sub a b : str) :
  Py.startswith sub a = true -> Py.startswith sub (a ++ b) = true.
Proof.
  rewrite !startswith_spec. intros [rest ->]. exists (rest ++ b).
  rewrite app_assoc. reflexivity.
Qed.

Lemma endswith_spec (suffix s : str) :
  Py.endswith suffix s = true <-> exists stem, s = stem ++ suffix.
Proof.
  unfold Py.endswith. rewrite startswith_spec. split.
  - intros [rest H]. exists (rev rest).
    rewrite <- (rev_involutive s), H, rev_app_distr, rev_involutive.
    reflexivity.
  - intros [stem ->]. exists (rev stem). apply rev_app_distr.
Qed.

Lemma contains_position (sub s : str) :
  Py.contains sub s = true <->
  exists p, Py.startswith sub (skipn p s) = true.
Proof.
  induction s as [|c s IH].
  - simpl. rewrite orb_false_r. split.
    + intros H. exists 0. exact H.
    + intros [p H]. rewrite skipn_nil in H. exact H.
  - cbn [Py.contains]. rewrite orb_true_iff, IH. split.
    + intros [H|[p H]]; [exists 0; exact H|exists (S p); exact H].
    + intros [[|p] H]; [left; exact H|right; exists p; exact H].
Qed.

Lemma contains_app_l (sub a b : str) :
  Py.contains sub a = true -> Py.contains sub (a ++ b) = true.
Proof.
  rewrite !contains_position. intros [p H].
  destruct (Nat.le_gt_cases p (length a)) as [Hp|Hp].
  - exists p. rewrite skipn_app.
    replace (p - length a) with 0 by lia. apply startswith_app, H.
  - exists (length a). rewrite skipn_all2 in H by lia.
    rewrite skipn_app, skipn_all, Nat.sub_diag. simpl.
    destruct sub; [reflexivity|simpl in H; discriminate].
Qed.

Lemma count_positive (s sub : str) :
  Py.contains sub s = true -> 1 <= Py.count s sub.
Proof.
  intros H. unfold Py.count. destruct sub as [|k sub]; [lia|].
  apply contains_position in H. destruct H as [p H].
  assert (Hne : k :: sub <> []) by discriminate.
  pose proof (count_occurrence Hne p s H) as Hc. cbv beta zeta in Hc. lia.
Qed.

(** ** Where the keyword occurs, the pattern matches *)





Lemma filter_all A (f : A -> bool) (l : list A) :
  (forall x, In x l -> f x = true) -> filter f l = l.
Proof.
  induction l as [|x l IH]; intros H; simpl; [reflexivity|].
  rewrite (H x (or_introl eq_refl)), IH; [reflexivity|].
  intros y Hy. apply H. right. exact Hy.
Qed.

Lemma subsequence_in A (l l' : list A) (x : A) :
  subsequence l l' -> In x l -> In x l'.
Proof.
  induction 1 as [|y l l' _ IH|y l l' _ IH]; simpl; intros Hx.
  - exact Hx.
  - right. apply IH, Hx.
  - destruct Hx as [->|Hx]; [left; reflexivity|right; apply IH, Hx].
Qed.

Section ResultFacts.
Variables D W : Type.
Variable extract : D -> W -> str * W.
Variable pause : W -> W.

Lemma result_count_positive
  (pdf_links : list D) (K : str) (w : W) (r : result D) :
  In r (fst (search_keyword_in_pdfs extract pause pdf_links K w)) ->
  1 <= count r.
Proof.
  intros Hr.
  destruct (in_search_results _ _ _ _ _ _ Hr) as (T & _ & _ & Hc & Heq).
  rewrite Heq. cbn [count]. apply count_positive, Hc.
Qed.


(** X2. With the threshold at its default of 1, or below, no result of
    the search is left out: the results shown are those found, in
    another order. *)
Theorem default_threshold_shows_all
  (pdf_links : list D) (K : str) (w : W) (min_matches : nat) :
  min_matches <= 1 ->
  Permutation
    (shown min_matches
           (fst (search_keyword_in_pdfs extract pause pdf_links K w)))
    (fst (search_keyword_in_pdfs extract pause pdf_links K w)).
Proof.
  intros Hm. unfold shown. rewrite filter_all.
  - apply sorted_reverse_perm.
  - intros r Hr.
    apply (Permutation_in _ (sorted_reverse_perm count _)) in Hr.
    pose proof (result_count_positive _ _ _ _ Hr) as Hc.
    apply negb_true_iff, Nat.ltb_ge. lia.
Qed.
End ResultFacts.

Section MoreResultFacts.
Variables D W : Type.
Variable extract : D -> W -> str * W.
Variable pause : W -> W.
Variable links : W -> list D * W.


(** X4. What [main] shows comes from the links it discovered: every
    result shown is for one of them, with a count that is at least 1
    and at least the threshold, and only when a keyword was typed. *)
Theorem main_shows_discovered_documents
  (K : str) (min_matches : nat) (w : W) (r : result D) :
  In r (fst (main extract pause links K min_matches w)) ->
  K <> []
  /\ In (doc r) (fst (links w))
  /\ 1 <= count r
  /\ min_matches <= count r.
Proof.
  intros Hr. destruct K as [|k K]; [contradiction|].
  split; [discriminate|].
  rewrite main_shows in Hr by discriminate.
  destruct (fst (links w)) as [|d l] eqn:El; [contradiction|].
  rewrite <- El in *. clear El d l.
  unfold shown in Hr. apply filter_In in Hr. destruct Hr as [Hr Hm].
  apply (Permutation_in _ (sorted_reverse_perm count _)) in Hr.
  split; [|split].
  - destruct (in_search_results _ _ _ _ _ _ Hr) as (T & Hin & _).
    rewrite <- (extracted_docs extract pause (fst (links w)) (snd (links w))).
    apply (in_map fst) in Hin. exact Hin.
  - apply (result_count_positive _ _ _ _ _ _ Hr).
  - apply negb_true_iff, Nat.ltb_ge in Hm. exact Hm.
Qed.
End MoreResultFacts.

(** ** The highlighting of the snippets *)

Lemma contains_false (sub : str) (c : ascii) (tl : str) :
  Py.contains sub (c :: tl) = false ->
  Py.startswith sub (c :: tl) = false /\ Py.contains sub tl = false.
Proof. cbn [Py.contains]. intros H. apply orb_false_iff in H. exact H. Qed.




(** ** The name shown for a document *)

Lemma before_char_spec (sep : ascii) (s : str) :
  ~ In sep (Py.before_char sep s)
  /\ exists rest,
       s = Py.before_char sep s ++ rest
       /\ (rest = [] \/ exists rest', rest = sep :: rest').
Proof.
  induction s as [|c tl (Hnot & rest & Hs & Hrest)]; simpl.
  - split; [intros []|]. exists []. split; [reflexivity|left; reflexivity].
  - destruct (Ascii.eqb c sep) eqn:E.
    + apply Ascii.eqb_eq in E. subst c. split; [intros []|].
      exists (sep :: tl). split; [reflexivity|right; exists tl; reflexivity].
    + split.
      * intros [H|H]; [|exact (Hnot H)].
        subst c. rewrite Ascii.eqb_refl in E. discriminate.
      * exists rest. split; [simpl; rewrite <- Hs; reflexivity|exact Hrest].
Qed.

Lemma split_last_spec (sep : ascii) (s : str) :
  ~ In sep (Py.split_last sep s)
  /\ exists dir,
       s = dir ++ Py.split_last sep s
       /\ (dir = [] \/ exists dir', dir = dir' ++ [sep]).
Proof.
  unfold Py.split_last.
  destruct (before_char_spec sep (rev s)) as (Hnot & rest & Hs & Hrest).
  split.
  - intros H. apply Hnot, in_rev. exact H.
  - exists (rev rest). split.
    + rewrite <- rev_app_distr, <- Hs. symmetry. apply rev_involutive.
    + destruct Hrest as [->|[rest' ->]]; [left; reflexivity|].
      right. exists (rev rest'). reflexivity.
Qed.

(** X6. The name shown for a document, the [filename] of 83bd0a and the
    expander title of 002b0f, is the end of its address behind the last
    slash: it has no slash in it, and the address is a directory part,
    empty or ending in a slash, followed by the name. *)
Theorem filename_is_last_segment (r : result str) :
  F83bd0a.filename r = F002b0f.expander_name r
  /\ ~ In "/"%char (F83bd0a.filename r)
  /\ exists dir,
       doc r = dir ++ F83bd0a.filename r
       /\ (dir = [] \/ exists dir', dir = dir' ++ py "/").
Proof.
  split; [reflexivity|]. unfold F83bd0a.filename.
  apply (split_last_spec "/"%char (doc r)).
Qed.

(** ** Which links are taken *)

(** X7. A link counts as a PDF exactly when its address ends in an
    extension that reads [.pdf] once lower-cased: [.PDF] and [.Pdf] are
    taken, an address with anything behind the extension is not. *)
Theorem is_pdf_href_spec (h : str) :
  is_pdf_href h = true <->
  exists stem ext, h = stem ++ ext /\ Py.lower ext = py ".pdf".
Proof.
  unfold is_pdf_href. rewrite endswith_spec. split.
  - intros [stem' H].
    assert (Hlen : length h = length stem' + 4).
    { rewrite <- (lower_length h), H, length_app. reflexivity. }
    exists (firstn (length stem') h), (skipn (length stem') h).
    split; [symmetry; apply firstn_skipn|].
    rewrite lower_skipn, H, skipn_app, skipn_all, Nat.sub_diag.
    reflexivity.
  - intros (stem & ext & -> & Hext). exists (Py.lower stem).
    unfold Py.lower in *. rewrite map_app, Hext. reflexivity.
Qed.

Lemma after_first_contains (sep s : str) :
  Py.contains sep s = true -> Py.after_first sep s <> None.
Proof.
  induction s as [|c tl IH]; cbn [Py.contains Py.after_first]; intros H.
  - rewrite orb_false_r in H. rewrite H. discriminate.
  - destruct (Py.startswith sep (c :: tl)); [discriminate|].
    apply IH, H.
Qed.

Lemma before_first_prefix (sep s : str) :
  exists rest, s = Py.before_first sep s ++ rest.
Proof.
  induction s as [|c tl [rest IH]]; cbn [Py.before_first].
  - destruct (Py.startswith sep []); exists []; reflexivity.
  - destruct (Py.startswith sep (c :: tl)); [exists (c :: tl); reflexivity|].
    exists rest. simpl. rewrite <- IH. reflexivity.
Qed.

Lemma before_first_free (sep s : str) :
  sep <> [] -> Py.contains sep (Py.before_first sep s) = false.
Proof.
  intros Hne.
  assert (Hnil : Py.contains sep [] = false)
    by (destruct sep; [congruence|reflexivity]).
  induction s as [|c tl IH]; cbn [Py.before_first].
  - destruct (Py.startswith sep []); exact Hnil.
  - destruct (Py.startswith sep (c :: tl)) eqn:E; [exact Hnil|].
    cbn [Py.contains]. rewrite IH, orb_false_r.
    destruct (Py.startswith sep (c :: Py.before_first sep tl)) eqn:E';
      [|reflexivity].
    destruct (before_first_prefix sep tl) as [rest Hrest].
    apply (startswith_app _ _ rest) in E'. simpl in E'.
    rewrite <- Hrest in E'. congruence.
Qed.

Lemma before_first_no_sep (sep s : str) :
  Py.contains sep s = false -> Py.before_first sep s = s.
Proof.
  induction s as [|c tl IH]; cbn [Py.before_first]; intros H.
  - destruct (Py.startswith sep []); reflexivity.
  - apply contains_false in H. destruct H as [H1 H2].
    rewrite H1, (IH H2). reflexivity.
Qed.

(** ** The download links of variant 5c3fc3 *)

Lemma download_link_spec (a : anchor) :
  exists found,
    F5c3fc3.download_link a = inr found
    /\ length found = (if is_download_href (href a) then 1 else 0)
    /\ Forall (fun info =>
                 F5c3fc3.url info
                 = F5c3fc3.PDF_BASE_URL ++ py "?num_id_pk=" ++ F5c3fc3.id info
                 /\ Py.contains (py "num_id_pk=") (F5c3fc3.id info) = false
                 /\ F5c3fc3.title info = Py.strip (link_text a))
              found.
Proof.
  unfold F5c3fc3.download_link, is_download_href.
  destruct (Py.contains (py "common_download.jsp") (href a));
    [|exists []; repeat split; constructor].
  destruct (Py.contains (py "num_id_pk=") (href a)) eqn:E;
    [|exists []; repeat split; constructor].
  pose proof (after_first_contains _ _ E) as Hsome.
  unfold Py.split_item1.
  destruct (Py.after_first (py "num_id_pk=") (href a)) as [rest|];
    [|congruence].
  cbn [option_map]. eexists. split; [reflexivity|]. split; [reflexivity|].
  constructor; [|constructor]. cbn [F5c3fc3.url F5c3fc3.id F5c3fc3.title].
  split; [reflexivity|]. split; [|reflexivity].
  apply before_first_free. discriminate.
Qed.

Lemma download_links_spec (l : list anchor) :
  forall pdf_links,
  exists found,
    F5c3fc3.download_links l pdf_links = inr (pdf_links ++ found)
    /\ length found
       = length (filter (fun a => is_download_href (href a)) l)
    /\ Forall (fun info =>
                 F5c3fc3.url info
                 = F5c3fc3.PDF_BASE_URL ++ py "?num_id_pk=" ++ F5c3fc3.id info
                 /\ Py.contains (py "num_id_pk=") (F5c3fc3.id info) = false
                 /\ trimmed (F5c3fc3.title info))
              found.
Proof.
  induction l as [|a l IH]; intros pdf_links; cbn [F5c3fc3.download_links].
  - exists []. rewrite app_nil_r. repeat split. constructor.
  - destruct (download_link_spec a) as (found & -> & Hlen & Hwf).
    destruct (IH (pdf_links ++ found)) as (found' & -> & Hlen' & Hwf').
    exists (found ++ found'). rewrite app_assoc. split; [reflexivity|].
    split.
    + rewrite length_app, Hlen, Hlen'. cbn [filter].
      destruct (is_download_href (href a)); reflexivity.
    + apply Forall_app. split; [|exact Hwf'].
      revert Hwf. apply Forall_impl. intros info (H1 & H2 & H3).
      split; [exact H1|]. split; [exact H2|]. rewrite H3.
      destruct (strip_spec (link_text a)) as (_ & _ & _ & _ & _ & H).
      exact H.
Qed.

Lemma get_all_pdf_links_5c3fc3_gives E base w resp :
  fetch_gives E w (listing_request_5c3fc3 base) resp ->
  exists found,
    F5c3fc3.get_all_pdf_links E base w
    = (found, log_request (listing_request_5c3fc3 base) w)
    /\ F5c3fc3.download_links (anchors (BeautifulSoup E (content resp))) []
       = inr found.
Proof.
  intros H.
  destruct (download_links_spec (anchors (BeautifulSoup E (content resp))) [])
    as (found & Hf & _).
  exists found. split; [|exact Hf].
  unfold F5c3fc3.get_all_pdf_links, try_except.
  fold (listing_request_5c3fc3 base). rewrite (fetch_success _ H).
  unfold lift. rewrite Hf. reflexivity.
Qed.

(** X8. Every document that the discovery of 5c3fc3 returns has the
    download address made of the fixed endpoint and its identifier, an
    identifier that ends before any further [num_id_pk=], and a title
    without white space at its ends. *)
Theorem discovered_downloads_wellformed
  (E : libs) (base : str) (w : world) (info : F5c3fc3.pdf_info) :
  In info (fst (F5c3fc3.get_all_pdf_links E base w)) ->
  F5c3fc3.url info
  = F5c3fc3.PDF_BASE_URL ++ py "?num_id_pk=" ++ F5c3fc3.id info
  /\ Py.contains (py "num_id_pk=") (F5c3fc3.id info) = false
  /\ trimmed (F5c3fc3.title info).
Proof.
  intros Hin.
  destruct (fetch_outcome E w (listing_request_5c3fc3 base))
    as [[e H]|[resp H]].
  - rewrite (listing_failure_5c3fc3 H) in Hin. contradiction.
  - destruct (get_all_pdf_links_5c3fc3_gives H) as (found & Hrun & Hf).
    rewrite Hrun in Hin. cbn [fst] in Hin.
    destruct (download_links_spec (anchors (BeautifulSoup E (content resp))) [])
      as (found' & Hf' & _ & Hwf).
    rewrite Hf in Hf'. injection Hf' as ->. simpl in Hin.
    rewrite Forall_forall in Hwf. apply Hwf, Hin.
Qed.

(** X9. When the listing page is there, the discovery of 5c3fc3 returns
    one document for every link that names the download endpoint and
    has the [num_id_pk=] parameter, an empty identifier included, and
    none for any other link; reading the links never fails, and nothing
    is put on the screen. *)
Theorem discovery_takes_every_download_link
  (E : libs) (base : str) (w : world) (resp : response) :
  fetch_gives E w (listing_request_5c3fc3 base) resp ->
  length (fst (F5c3fc3.get_all_pdf_links E base w))
  = length (filter (fun a => is_download_href (href a))
                   (anchors (BeautifulSoup E (content resp))))
  /\ notices (snd (F5c3fc3.get_all_pdf_links E base w)) = notices w.
Proof.
  intros H.
  destruct (get_all_pdf_links_5c3fc3_gives H) as (found & Hrun & Hf).
  rewrite Hrun. cbn [fst snd log_request notices]. split; [|reflexivity].
  destruct (download_links_spec (anchors (BeautifulSoup E (content resp))) [])
    as (found' & Hf' & Hlen & _).
  rewrite Hf in Hf'. injection Hf' as ->. exact Hlen.
Qed.

Lemma download_address_rescanned (num_id text : str) :
  Py.contains (py "num_id_pk=") num_id = false ->
  F5c3fc3.download_link
    {| href := F5c3fc3.PDF_BASE_URL ++ py "?num_id_pk=" ++ num_id;
       link_text := text |}
  = inr [{| F5c3fc3.url
              := F5c3fc3.PDF_BASE_URL ++ py "?num_id_pk=" ++ num_id;
            F5c3fc3.title := Py.strip text;
            F5c3fc3.id := num_id |}].
Proof.
  intros Hfree. unfold F5c3fc3.download_link. cbn [href link_text].
  assert (H1 : Py.contains (py "common_download.jsp")
                 (F5c3fc3.PDF_BASE_URL ++ py "?num_id_pk=" ++ num_id) = true)
    by (apply contains_app_l; vm_compute; reflexivity).
  assert (H2 : Py.contains (py "num_id_pk=")
                 (F5c3fc3.PDF_BASE_URL ++ py "?num_id_pk=" ++ num_id) = true).
  { rewrite app_assoc. apply contains_app_l. vm_compute. reflexivity. }
  assert (H3 : Py.after_first (py "num_id_pk=")
                 (F5c3fc3.PDF_BASE_URL ++ py "?num_id_pk=" ++ num_id)
               = Some num_id)
    by (vm_compute; reflexivity).
  rewrite H1, H2. unfold Py.split_item1. rewrite H3. cbn [option_map].
  rewrite (before_first_no_sep _ _ Hfree). reflexivity.
Qed.

(** X10. The address built for a discovered document is read back as it
    was built: a link with this address is taken as a download, with
    the same identifier and the same address. *)
Theorem discovered_address_round_trip
  (E : libs) (base : str) (w : world) (info : F5c3fc3.pdf_info)
  (text : str) :
  In info (fst (F5c3fc3.get_all_pdf_links E base w)) ->
  F5c3fc3.download_link {| href := F5c3fc3.url info; link_text := text |}
  = inr [{| F5c3fc3.url := F5c3fc3.url info;
            F5c3fc3.title := Py.strip text;
            F5c3fc3.id := F5c3fc3.id info |}].
Proof.
  intros Hin.
  destruct (fetch_outcome E w (listing_request_5c3fc3 base))
    as [[e H]|[resp H]].
  - rewrite (listing_failure_5c3fc3 H) in Hin. contradiction.
  - destruct (get_all_pdf_links_5c3fc3_gives H) as (found & Hrun & Hf).
    rewrite Hrun in Hin. cbn [fst] in Hin.
    destruct (download_links_spec (anchors (BeautifulSoup E (content resp))) [])
      as (found' & Hf' & _ & Hwf).
    rewrite Hf in Hf'. injection Hf' as ->. simpl in Hin.
    rewrite Forall_forall in Hwf. destruct (Hwf _ Hin) as (Hurl & Hfree & _).
    rewrite Hurl. apply download_address_rescanned, Hfree.
Qed.

(** X11. The download link [main] writes for a result of 5c3fc3 points
    to the address the text was fetched from: its [href] is the [url]
    of the discovered document, its file name the title with [.pdf]. *)
Theorem download_link_points_to_fetched_address
  (E : libs) (base : str) (w : world) (info : F5c3fc3.pdf_info) :
  In info (fst (F5c3fc3.get_all_pdf_links E base w)) ->
  F5c3fc3.get_download_link (F5c3fc3.id info) (F5c3fc3.title info)
  = py "<a href=" ++ F5c3fc3.quote ++ F5c3fc3.url info ++ F5c3fc3.quote
    ++ py " target=" ++ F5c3fc3.quote ++ py "_blank" ++ F5c3fc3.quote
    ++ py " download=" ++ F5c3fc3.quote
    ++ F5c3fc3.title info ++ py ".pdf" ++ F5c3fc3.quote
    ++ py ">Download PDF</a>"
  /\ map req_url (sent (snd (F5c3fc3.extract_text_from_pdf_body E info w)))
     = map req_url (sent w) ++ [F5c3fc3.url info].
Proof.
  intros Hin.
  destruct (fetch_outcome E w (listing_request_5c3fc3 base))
    as [[e H]|[resp H]].
  - rewrite (listing_failure_5c3fc3 H) in Hin. contradiction.
  - destruct (get_all_pdf_links_5c3fc3_gives H) as (found & Hrun & Hf).
    rewrite Hrun in Hin. cbn [fst] in Hin.
    destruct (download_links_spec (anchors (BeautifulSoup E (content resp))) [])
      as (found' & Hf' & _ & Hwf).
    rewrite Hf in Hf'. injection Hf' as ->. simpl in Hin.
    rewrite Forall_forall in Hwf. destruct (Hwf _ Hin) as (Hurl & _).
    split; [|rewrite extract_sends_one_5c3fc3, map_app; reflexivity].
    unfold F5c3fc3.get_download_link. cbv zeta. rewrite <- Hurl.
    reflexivity.
Qed.

(** ** The time a search takes *)

Lemma extract_body_now_5c3fc3 E info w :
  now (snd (F5c3fc3.extract_text_from_pdf_body E info w)) = now w.
Proof.
  destruct (fetch_outcome E w (document_request_5c3fc3 (F5c3fc3.url info)))
    as [[e' H]|[resp H]].
  - rewrite (extract_failure_5c3fc3 _ H). reflexivity.
  - unfold F5c3fc3.extract_text_from_pdf_body, try_except.
    fold (document_request_5c3fc3 (F5c3fc3.url info)).
    rewrite (fetch_success _ H).
    unfold try_except_PdfReadError, bind, lift.
    destruct (PdfReader E (content resp)) as [[]|pages]; try reflexivity.
    destruct (read_pages pages []) as [[]|text]; reflexivity.
Qed.

Lemma cache_data_now K V (K_eq_dec : forall a b : K, {a = b} + {a <> b})
      (ttl : N) (f : K -> world -> V * world) k c w :
  (forall k w, now (snd (f k w)) = now w) ->
  now (snd (snd (cache_data K_eq_dec ttl f k (c, w)))) = now w.
Proof.
  intros Hf. unfold cache_data. destruct (fresh ttl c k (now w)).
  - reflexivity.
  - specialize (Hf k w). destruct (f k w). exact Hf.
Qed.

Section SearchClock.
Variables D W : Type.
Variable extract : D -> W -> str * W.
Variable pause : W -> W.
Variable clock : W -> N.
Variable delay : N.
Hypothesis extract_clock : forall d w, clock (snd (extract d w)) = clock w.
Hypothesis pause_clock : forall w, clock (pause w) = (clock w + delay)%N.

Lemma search_loop_clock keyword pdf_links :
  forall results w,
    clock (snd (search_loop extract pause keyword pdf_links results w))
    = (clock w
       + delay * N.of_nat
                   (length (with_text (extracted extract pause pdf_links w))))%N.
Proof.
  induction pdf_links as [|d rest IH]; intros results w.
  - simpl. lia.
  - cbn [search_loop extracted]. specialize (extract_clock d w).
    destruct (extract d w) as [text w1]. cbn [snd] in extract_clock.
    destruct text as [|c text]; unfold with_text; cbn [filter snd].
    + rewrite IH, extract_clock. reflexivity.
    + rewrite IH, pause_clock, extract_clock. cbn [length].
      fold (with_text (extracted extract pause rest (pause w1))). lia.
Qed.
End SearchClock.

(** X12. A search of 5c3fc3 pauses one second behind every document
    that gave some text, whether the keyword is in it or not, and does
    not pause behind a document without text: by the clock of the
    model, it ends that many seconds after it began. *)
Theorem search_pauses_after_documents_with_text
  (E : libs) (pdf_list : list F5c3fc3.pdf_info) (K : str)
  (st : cache F5c3fc3.pdf_info str * world) :
  now (snd (snd (F5c3fc3.search_keyword_in_pdfs E pdf_list K st)))
  = (now (snd st)
     + 1000 * N.of_nat
                (length (with_text
                           (extracted (F5c3fc3.extract_text_from_pdf E)
                                      (on_world (sleep 1000))
                                      pdf_list st))))%N.
Proof.
  unfold F5c3fc3.search_keyword_in_pdfs, search_keyword_in_pdfs.
  apply (@search_loop_clock _ _ (F5c3fc3.extract_text_from_pdf E)
           (on_world (sleep 1000)) (fun st => now (snd st)) 1000%N).
  - intros d [c w]. unfold F5c3fc3.extract_text_from_pdf.
    apply cache_data_now. intros k w0. apply extract_body_now_5c3fc3.
  - intros [c w]. reflexivity.
Qed.

(** ** The cache after 24 hours *)

(** X13. Once the 24 hours are over, the stored text is no longer used:
    the next call for the document runs the body again, which sends a
    request and returns what the site gives by then. *)
Theorem call_after_expiry_fetches_again
  (E : libs) (info : F5c3fc3.pdf_info)
  (c c' : cache F5c3fc3.pdf_info str) (w w' : world) :
  let first := F5c3fc3.extract_text_from_pdf E info (c, w) in
  let later := F5c3fc3.extract_text_from_pdf E info (c', w') in
  fresh ttl_24h c info (now w) = None ->
  c' info = fst (snd first) info ->
  (now w + ttl_24h <= now w')%N ->
  fst later = fst (F5c3fc3.extract_text_from_pdf_body E info w')
  /\ sent (snd (snd later))
     = sent w' ++ [document_request_5c3fc3 (F5c3fc3.url info)].
Proof.
  intros first later Hmiss Hc Ht.
  unfold first, F5c3fc3.extract_text_from_pdf in Hc.
  rewrite (@cache_data_miss _ _ F5c3fc3.pdf_info_eq_dec ttl_24h
             (F5c3fc3.extract_text_from_pdf_body E) info c w Hmiss) in Hc.
  cbn [fst snd] in Hc.
  assert (Hexp : fresh ttl_24h c' info (now w') = None).
  { eapply fresh_expired; [exact Hc|]. cbn [stored_at].
    rewrite extract_body_now_5c3fc3. exact Ht. }
  unfold later, F5c3fc3.extract_text_from_pdf.
  rewrite (@cache_data_miss _ _ F5c3fc3.pdf_info_eq_dec ttl_24h
             (F5c3fc3.extract_text_from_pdf_body E) info c' w' Hexp).
  cbn [fst snd]. split; [reflexivity|apply extract_sends_one_5c3fc3].
Qed.

(** ** A payload that is no PDF *)

(** X14. In variant 5c3fc3 a payload the reader rejects with
    [PdfReadError] gives the empty text and nothing on the screen,
    while any other exception of the reader gives the empty text with a
    warning; variant 002b0f warns for [PdfReadError] too. *)
Theorem unreadable_pdf_is_silent
  (E : libs) (info : F5c3fc3.pdf_info) (u : str) (w : world)
  (resp : response) (e : exn) :
  PdfReader E (content resp) = inl e ->
  (fetch_gives E w (document_request_5c3fc3 (F5c3fc3.url info)) resp ->
   F5c3fc3.extract_text_from_pdf_body E info w
   = ([], match e with
          | PdfReadError =>
              log_request (document_request_5c3fc3 (F5c3fc3.url info)) w
          | _ =>
              show (StWarning (F5c3fc3.title info) e)
                   (log_request (document_request_5c3fc3 (F5c3fc3.url info)) w)
          end))
  /\ (fetch_gives E w (request_002b0f u) resp ->
      F002b0f.extract_text_from_pdf_body E u w
      = ([], show (StWarning u e) (log_request (request_002b0f u) w))).
Proof.
  intros He. split; intros H.
  - unfold F5c3fc3.extract_text_from_pdf_body, try_except.
    fold (document_request_5c3fc3 (F5c3fc3.url info)).
    rewrite (fetch_success _ H).
    unfold try_except_PdfReadError, bind, lift. rewrite He.
    destruct e; reflexivity.
  - unfold F002b0f.extract_text_from_pdf_body, try_except.
    fold (request_002b0f u). rewrite (fetch_success _ H).
    unfold bind, lift. rewrite He. reflexivity.
Qed.

(** ** The links of variant 83bd0a *)

(** X15. When the listing page is there, the discovery of 83bd0a
    returns the links to PDFs of the listing and of the pages its pager
    names, and no other; a pager page that cannot be fetched adds
    nothing and takes nothing away. *)
Theorem links_of_listing_and_pager_pages
  (E : libs) (base : str) (w : world) (resp : response) (x : str) :
  set_iter_ok E ->
  fetch_gives E w (page_request_83bd0a base) resp ->
  In x (fst (F83bd0a.get_all_pdf_links E base w)) <->
  In x (pdf_hrefs E base (anchors (BeautifulSoup E (content resp))))
  \/ exists links u,
       pagination (BeautifulSoup E (content resp)) = Some links
       /\ In u (map (fun a => urljoin E base (href a)) links)
       /\ In x (page_links_83bd0a E (now w) u).
Proof.
  intros Hset Hf. unfold F83bd0a.get_all_pdf_links, try_except.
  fold (page_request_83bd0a base). rewrite (fetch_success _ Hf).
  destruct (pagination (BeautifulSoup E (content resp))) as [links|].
  - unfold bind, effect, ret.
    destruct (scan_pages_83bd0a E
                (set_iter E (map (fun a => urljoin E base (href a)) links))
                (pdf_hrefs E base (anchors (BeautifulSoup E (content resp))))
                (show StInfo (log_request (page_request_83bd0a base) w)))
      as [H1 _].
    destruct (F83bd0a.scan_pages _ _ _ _) as [l w']. cbn [fst] in *.
    rewrite (proj2 (Hset l)), H1, in_app_iff, in_flat_map.
    cbn [show log_request now]. split.
    + intros [H|(u & Hu & Hx)]; [left; exact H|right].
      exists links, u. split; [reflexivity|].
      split; [apply (proj2 (Hset _)), Hu|exact Hx].
    + intros [H|(links' & u & Heq & Hu & Hx)]; [left; exact H|right].
      injection Heq as <-. exists u.
      split; [apply (proj2 (Hset _)), Hu|exact Hx].
  - unfold bind, ret. cbn [fst]. rewrite (proj2 (Hset _)). split.
    + intros H. left. exact H.
    + intros [H|(links & u & Heq & _)]; [exact H|discriminate].
Qed.

(** ** A listing that cannot be fetched *)


(** ** The requests of a search *)

Lemma cache_data_sends K V (K_eq_dec : forall a b : K, {a = b} + {a <> b})
      (ttl : N) (f : K -> world -> V * world) k c w :
  (forall k w, length (sent (snd (f k w))) = S (length (sent w))) ->
  length (sent (snd (snd (cache_data K_eq_dec ttl f k (c, w)))))
  <= S (length (sent w)).
Proof.
  intros Hf. unfold cache_data. destruct (fresh ttl c k (now w)).
  - cbn [snd replay sent]. lia.
  - specialize (Hf k w). destruct (f k w). cbn [snd] in *. lia.
Qed.

Section SearchRequests.
Variables D W : Type.
Variable extract : D -> W -> str * W.
Variable pause : W -> W.
Variable requests : W -> nat.
Hypothesis extract_requests :
  forall d w, requests (snd (extract d w)) <= S (requests w).
Hypothesis pause_requests : forall w, requests (pause w) = requests w.

Lemma search_loop_requests keyword pdf_links :
  forall results w,
    requests (snd (search_loop extract pause keyword pdf_links results w))
    <= requests w + length pdf_links.
Proof.
  induction pdf_links as [|d rest IH]; intros results w.
  - simpl. lia.
  - cbn [search_loop length]. specialize (extract_requests d w).
    destruct (extract d w) as [text w1]. cbn [snd] in extract_requests.
    destruct text as [|c text].
    + specialize (IH results w1). lia.
    + specialize (IH (results ++ search_document d (c :: text) keyword)
                     (pause w1)).
      rewrite pause_requests in IH. lia.
Qed.
End SearchRequests.

(** X17. A search of 5c3fc3 sends at most one request for every entry of
    the list it is given, and none of its own: the documents are the
    only thing it fetches. *)
Theorem search_sends_one_request_per_document_at_most
  (E : libs) (pdf_list : list F5c3fc3.pdf_info) (K : str)
  (st : cache F5c3fc3.pdf_info str * world) :
  length (sent (snd (snd (F5c3fc3.search_keyword_in_pdfs E pdf_list K st))))
  <= length (sent (snd st)) + length pdf_list.
Proof.
  unfold F5c3fc3.search_keyword_in_pdfs, search_keyword_in_pdfs.
  apply (@search_loop_requests _ _ (F5c3fc3.extract_text_from_pdf E)
           (on_world (sleep 1000)) (fun st => length (sent (snd st)))).
  - intros d [c w]. unfold F5c3fc3.extract_text_from_pdf.
    apply cache_data_sends. intros k w0.
    rewrite extract_sends_one_5c3fc3, length_app. simpl. lia.
  - intros [c w]. reflexivity.
Qed.

(** ** A page that cannot be read *)

Lemma read_pages_raises (texts : list (option str)) (e : exn)
      (rest : list (exn + option str)) (text : str) :
  read_pages (map inr texts ++ inl e :: rest) text = inl e.
Proof.
  revert text. induction texts as [|t texts IH]; intros text; simpl.
  - reflexivity.
  - apply IH.
Qed.

(** X18. When one page of a document raises while its text is read, the
    texts of the pages before it are not kept: the extraction of 5c3fc3
    returns the empty text for the whole document, and a warning unless
    the exception is [PdfReadError]. *)
Theorem one_bad_page_discards_the_text
  (E : libs) (info : F5c3fc3.pdf_info) (w : world) (resp : response)
  (texts : list (option str)) (e : exn) (rest : list (exn + option str)) :
  fetch_gives E w (document_request_5c3fc3 (F5c3fc3.url info)) resp ->
  PdfReader E (content resp) = inr (map inr texts ++ inl e :: rest) ->
  fst (F5c3fc3.extract_text_from_pdf_body E info w) = []
  /\ notices (snd (F5c3fc3.extract_text_from_pdf_body E info w))
     = notices w ++ match e with
                    | PdfReadError => []
                    | _ => [StWarning (F5c3fc3.title info) e]
                    end.
Proof.
  intros Hf Hp. unfold F5c3fc3.extract_text_from_pdf_body, try_except.
  fold (document_request_5c3fc3 (F5c3fc3.url info)).
  rewrite (fetch_success _ Hf).
  unfold try_except_PdfReadError, bind, lift.
  rewrite Hp, read_pages_raises.
  destruct e; cbn [fst snd show log_request notices];
    rewrite ?app_nil_r; split; reflexivity.
Qed.

(** * Instances of the further properties *)


Lemma default_threshold_shows_all_witness :
  Permutation
    (shown 1 (fst (F002b0f.search_keyword_in_pdfs Demo.E Demo.docs (py "a")
                                                  Demo.st0)))
    (fst (F002b0f.search_keyword_in_pdfs Demo.E Demo.docs (py "a") Demo.st0)).
Proof.
  apply (@default_threshold_shows_all _ _
           (F002b0f.extract_text_from_pdf Demo.E) (on_world (sleep 100))
           Demo.docs (py "a") Demo.st0 1).
  lia.
Defined.


Lemma main_shows_discovered_documents_witness :
  py "Paracetamol" <> []
  /\ In (doc Demo.found)
        (fst (links_uncached
                (F002b0f.get_all_pdf_links Demo.E F002b0f.CDSCO_BASE_URL)
                Demo.st0))
  /\ 1 <= count Demo.found
  /\ 2 <= count Demo.found.
Proof.
  apply (@main_shows_discovered_documents _ _
           (F002b0f.extract_text_from_pdf Demo.E) (on_world (sleep 100))
           (links_uncached
              (F002b0f.get_all_pdf_links Demo.E F002b0f.CDSCO_BASE_URL))
           (py "Paracetamol") 2 Demo.st0 Demo.found).
  vm_compute. left. reflexivity.
Defined.


Lemma discovered_downloads_wellformed_witness :
  F5c3fc3.url Demo.minutes
  = F5c3fc3.PDF_BASE_URL ++ py "?num_id_pk=" ++ F5c3fc3.id Demo.minutes
  /\ Py.contains (py "num_id_pk=") (F5c3fc3.id Demo.minutes) = false
  /\ trimmed (F5c3fc3.title Demo.minutes).
Proof.
  apply (@discovered_downloads_wellformed Demo.E Demo.listing Demo.w0).
  vm_compute. left. reflexivity.
Defined.

Lemma discovery_takes_every_download_link_witness :
  length (fst (F5c3fc3.get_all_pdf_links Demo.E Demo.listing Demo.w0)) = 2.
Proof.
  destruct (@discovery_takes_every_download_link Demo.E Demo.listing Demo.w0
              {| status_code := 200; content := [Byte.x01] |}) as [H _].
  - split; vm_compute; reflexivity.
  - rewrite H. vm_compute. reflexivity.
Defined.

Lemma discovered_address_round_trip_witness :
  F5c3fc3.download_link
    {| href := F5c3fc3.url Demo.minutes; link_text := py " again " |}
  = inr [{| F5c3fc3.url := F5c3fc3.url Demo.minutes;
            F5c3fc3.title := py "again";
            F5c3fc3.id := F5c3fc3.id Demo.minutes |}].
Proof.
  apply (@discovered_address_round_trip Demo.E Demo.listing Demo.w0
           Demo.minutes (py " again ")).
  vm_compute. left. reflexivity.
Defined.

Lemma download_link_points_to_fetched_address_witness :
  map req_url
      (sent (snd (F5c3fc3.extract_text_from_pdf_body Demo.E Demo.minutes
                                                     Demo.w0)))
  = [F5c3fc3.url Demo.minutes].
Proof.
  destruct (@download_link_points_to_fetched_address Demo.E Demo.listing
              Demo.w0 Demo.minutes) as [_ H].
  - vm_compute. left. reflexivity.
  - exact H.
Defined.

Lemma call_after_expiry_fetches_again_witness :
  let first := F5c3fc3.extract_text_from_pdf Demo.E Demo.late
                 (Demo.no_cache, Demo.w0) in
  let c' := fst (snd first) in
  let w' := sleep ttl_24h (snd (snd first)) in
  let later := F5c3fc3.extract_text_from_pdf Demo.E Demo.late (c', w') in
  fst first = []
  /\ fst later = py "the drug Paracetamol was administered. PARACETAMOL 500 mg"
  /\ length (sent (snd (snd later))) = 2.
Proof.
  intros first c' w' later.
  destruct (@call_after_expiry_fetches_again Demo.E Demo.late
              Demo.no_cache c' Demo.w0 w') as [H1 H2].
  - reflexivity.
  - reflexivity.
  - vm_compute. discriminate.
  - split; [reflexivity|]. split.
    + fold later in H1. rewrite H1. vm_compute. reflexivity.
    + fold later in H2. rewrite H2. vm_compute. reflexivity.
Defined.

Lemma unreadable_pdf_is_silent_witness :
  F5c3fc3.extract_text_from_pdf_body Demo.E Offline.not_a_pdf Demo.w0
  = ([], {| now := 0;
            sent := [document_request_5c3fc3 Demo.listing];
            notices := [] |})
  /\ F002b0f.extract_text_from_pdf_body Demo.E Demo.listing Demo.w0
     = ([], {| now := 0;
               sent := [request_002b0f Demo.listing];
               notices := [StWarning Demo.listing PdfReadError] |})
  /\ F5c3fc3.extract_text_from_pdf_body Offline.E_broken_reader Demo.minutes
                                        Demo.w0
     = ([], {| now := 0;
               sent := [document_request_5c3fc3 (F5c3fc3.url Demo.minutes)];
               notices := [StWarning (py "Minutes of the meeting")
                                     OtherError] |}).
Proof.
  destruct (@unreadable_pdf_is_silent Demo.E Offline.not_a_pdf Demo.listing
              Demo.w0 {| status_code := 200; content := [Byte.x01] |}
              PdfReadError) as [H1 H2]; [reflexivity|].
  destruct (@unreadable_pdf_is_silent Offline.E_broken_reader Demo.minutes
              Demo.listing Demo.w0
              {| status_code := 200; content := [Byte.x0a] |}
              OtherError) as [H3 _]; [reflexivity|].
  split; [rewrite H1; [reflexivity|split; vm_compute; reflexivity]|].
  split; [rewrite H2; [reflexivity|split; vm_compute; reflexivity]|].
  rewrite H3; [reflexivity|split; vm_compute; reflexivity].
Defined.

Lemma links_of_listing_and_pager_pages_witness :
  In Demo.c_pdf (fst (F83bd0a.get_all_pdf_links Demo.E Demo.listing Demo.w0)).
Proof.
  apply (@links_of_listing_and_pager_pages Demo.E Demo.listing Demo.w0
           {| status_code := 200; content := [Byte.x01] |} Demo.c_pdf).
  - apply demo_set_iter_ok.
  - split; vm_compute; reflexivity.
  - right. exists [Demo.link "list"; Demo.link "list?page=2";
                   Demo.link "list?page=2"], Demo.page2.
    split; [reflexivity|]. split; vm_compute; auto.
Defined.


Lemma one_bad_page_discards_the_text_witness :
  F5c3fc3.extract_text_from_pdf_body bad_page_libs Demo.minutes Demo.w0
  = ([], {| now := 0;
            sent := [document_request_5c3fc3 (F5c3fc3.url Demo.minutes)];
            notices := [StWarning (py "Minutes of the meeting")
                                  OtherError] |}).
Proof.
  destruct (@one_bad_page_discards_the_text bad_page_libs Demo.minutes
              Demo.w0 {| status_code := 200; content := [Byte.x0a] |}
              [Some (py "page one")] OtherError
              [inr (Some (py "page three"))]) as [H1 H2].
  - split; vm_compute; reflexivity.
  - reflexivity.
  - destruct (F5c3fc3.extract_text_from_pdf_body bad_page_libs Demo.minutes
                                                 Demo.w0) as [t w1] eqn:Eq.
    cbn [fst snd] in H1, H2. vm_compute in Eq. injection Eq as <- <-.
    reflexivity.
Defined.
